(** * Attendance management system: the approval workflow of
      [backend/app/routers/frontend_compat.py]

    A shallow embedding of the attendance and leave endpoints of the
    frontend compatibility router, and the properties of the workflow they
    implement: role-scoped listings, clock-in and clock-out, confirmation,
    manager verification, leave approval, rejection and deletion.

    The database session is an explicit state threaded through a small
    state-and-exception monad; a request that raises is not committed. *)

From Stdlib Require Import ZArith List String Ascii Bool Lia Permutation.
From Stdlib Require Import DecimalString.
From Stdlib Require Import Sorted.
Import ListNotations.

Open Scope string_scope.
Open Scope Z_scope.

Set Implicit Arguments.

(** ** Python values used by the router *)

(** [str(n)] for an integer. *)
Definition str_int (n : Z) : string :=
  NilZero.string_of_int (Z.to_int n).

(** Truthiness of an [Optional[str]]: [None] and the empty string are falsy. *)
Definition truthy (s : option string) : bool :=
  match s with
  | Some EmptyString => false
  | Some _ => true
  | None => false
  end.

(** [x or default] on an [Optional[str]]. *)
Definition str_or (s : option string) (default : string) : string :=
  if truthy s then match s with Some v => v | None => default end else default.

Definition is_some {A} (o : option A) : bool :=
  match o with Some _ => true | None => false end.

Definition option_eqb {A} (eqb : A -> A -> bool) (x y : option A) : bool :=
  match x, y with
  | Some a, Some b => eqb a b
  | None, None => true
  | _, _ => false
  end.

(** *** [datetime.date] and [datetime.datetime] *)

Module date.
Record t := mk { year : Z; month : Z; day : Z }.

Definition is_leap (y : Z) : bool :=
    (y mod 4 =? 0) && (negb (y mod 100 =? 0) || (y mod 400 =? 0)).

Definition days_before_year (y : Z) : Z :=
    let p := y - 1 in p * 365 + p / 4 - p / 100 + p / 400.

Definition days_in_month (y m : Z) : Z :=
    if m =? 2 then (if is_leap y then 29 else 28)
    else if (m =? 4) || (m =? 6) || (m =? 9) || (m =? 11) then 30
    else 31.

Fixpoint days_before_month_aux (y : Z) (m : nat) : Z :=
    match m with
    | O => 0
    | S k => days_before_month_aux y k + days_in_month y (Z.of_nat (S k))
    end.

(** Days of the year that precede the first day of month [m]. *)
Definition days_before_month (y m : Z) : Z :=
    days_before_month_aux y (Z.to_nat (m - 1)).

(** [date.toordinal()]: 1 for 0001-01-01. *)
Definition toordinal (d : t) : Z :=
    days_before_year (year d) + days_before_month (year d) (month d) + day d.

(** [(a - b).days] *)
Definition sub_days (a b : t) : Z := toordinal a - toordinal b.

Definition leb (a b : t) : bool := toordinal a <=? toordinal b.
Definition ltb (a b : t) : bool := toordinal a <? toordinal b.
Definition eqb (a b : t) : bool :=
    (year a =? year b) && (month a =? month b) && (day a =? day b).

Definition pad (width : nat) (s : string) : string :=
    let fix zeros (k : nat) : string :=
      match k with O => "" | S k' => String "0" (zeros k') end in
    zeros (width - String.length s)%nat ++ s.

(** [str(d)], the ISO form YYYY-MM-DD. *)
Definition str (d : t) : string :=
    pad 4 (str_int (year d)) ++ "-" ++ pad 2 (str_int (month d)) ++ "-"
      ++ pad 2 (str_int (day d)).
End date.

Module datetime.
Record t := mk { date_of : date.t; hour : Z; minute : Z; second : Z }.

(** The constructor [datetime(y, m, d, hour, minute, second)] on a valid
      day: it raises [ValueError] when a time field is out of range. *)
Definition make (d : date.t) (h mi s : Z) : option t :=
    if (0 <=? h) && (h <=? 23) && (0 <=? mi) && (mi <=? 59)
       && (0 <=? s) && (s <=? 59)
    then Some (mk d h mi s) else None.

(** Seconds since the start of day 0, the order of naive datetimes. *)
Definition key (x : t) : Z :=
    ((date.toordinal (date_of x) * 24 + hour x) * 60 + minute x) * 60 + second x.

(** [x.isoformat()] of a naive datetime with no microseconds. *)
Definition isoformat (x : t) : string :=
  date.str (date_of x) ++ "T" ++ date.pad 2 (str_int (hour x)) ++ ":"
    ++ date.pad 2 (str_int (minute x)) ++ ":" ++ date.pad 2 (str_int (second x)).

(** [x.strftime("%H:%M")] *)
Definition strftime_HM (x : t) : string :=
    date.pad 2 (str_int (hour x)) ++ ":" ++ date.pad 2 (str_int (minute x)).
End datetime.

(** ** The data model

    [app/models.py] is not part of the sources at hand; the classes below
    carry the columns that the router reads and writes. *)

Module RoleEnum.
(** Modelled from the spec: [models.RoleEnum], the role of an employee,
    one of employee, manager, admin (section 3, Employee). *)
Inductive t := employee | manager | admin.

Definition eqb (a b : t) : bool :=
  match a, b with
  | employee, employee | manager, manager | admin, admin => true
  | _, _ => false
  end.
End RoleEnum.

Module LeaveStatus.
(** Modelled from the spec: [models.LeaveStatus], the status of a leave
    request, one of pending, approved, rejected (section 3, LeaveRequest). *)
Inductive t := pending | approved | rejected.

Definition eqb (a b : t) : bool :=
  match a, b with
  | pending, pending | approved, approved | rejected, rejected => true
  | _, _ => false
  end.
End LeaveStatus.

Module Employee.
(** Modelled from the spec: [models.Employee] (section 3), with the
    optional self-referential manager reference. *)
Record t := mk {
  id : Z;
  first_name : string;
  last_name : string;
  email : string;
  role : RoleEnum.t;
  department_id : option Z;
  manager_id : option Z
}.
End Employee.

Module AttendanceRecord.
(** Modelled from the spec: [models.AttendanceRecord] (section 3); the
    confirmation columns are the nullable ones added by the migration
    [add_attendance_confirmation]. *)
Record t := mk {
  id : Z;
  employee_id : Z;
  date : date.t;
  check_in_time : option datetime.t;
  check_out_time : option datetime.t;
  status : option string;
  approval_status : option string;
  is_confirmed : option bool;
  confirmed_at : option datetime.t
}.

Definition set_check_out_time (v : option datetime.t) (r : t) : t :=
  mk (id r) (employee_id r) (date r) (check_in_time r) v (status r)
     (approval_status r) (is_confirmed r) (confirmed_at r).

Definition set_status (v : option string) (r : t) : t :=
  mk (id r) (employee_id r) (date r) (check_in_time r) (check_out_time r) v
     (approval_status r) (is_confirmed r) (confirmed_at r).

Definition set_approval_status (v : option string) (r : t) : t :=
  mk (id r) (employee_id r) (date r) (check_in_time r) (check_out_time r)
     (status r) v (is_confirmed r) (confirmed_at r).

Definition set_is_confirmed (v : option bool) (r : t) : t :=
  mk (id r) (employee_id r) (date r) (check_in_time r) (check_out_time r)
     (status r) (approval_status r) v (confirmed_at r).

Definition set_confirmed_at (v : option datetime.t) (r : t) : t :=
  mk (id r) (employee_id r) (date r) (check_in_time r) (check_out_time r)
     (status r) (approval_status r) (is_confirmed r) v.
End AttendanceRecord.

Module AttendanceEntry.
(** Modelled from the spec: [models.AttendanceEntry] (section 3), a child
    row of one attendance record. *)
Record t := mk {
  id : Z;
  attendance_record_id : Z;
  entry_type : string;
  timestamp : datetime.t;
  reason : option string
}.
End AttendanceEntry.

Module LeaveRequest.
(** Modelled from the spec: [models.LeaveRequest] (section 3). *)
Record t := mk {
  id : Z;
  employee_id : Z;
  leave_type_id : Z;
  start_date : date.t;
  end_date : date.t;
  reason : option string;
  status : LeaveStatus.t;
  applied_at : option datetime.t;
  reviewed_by : option Z;
  reviewed_at : option datetime.t
}.

Definition set_status (v : LeaveStatus.t) (r : t) : t :=
  mk (id r) (employee_id r) (leave_type_id r) (start_date r) (end_date r)
     (reason r) v (applied_at r) (reviewed_by r) (reviewed_at r).

Definition set_reviewed_by (v : option Z) (r : t) : t :=
  mk (id r) (employee_id r) (leave_type_id r) (start_date r) (end_date r)
     (reason r) (status r) (applied_at r) v (reviewed_at r).

Definition set_reviewed_at (v : option datetime.t) (r : t) : t :=
  mk (id r) (employee_id r) (leave_type_id r) (start_date r) (end_date r)
     (reason r) (status r) (applied_at r) (reviewed_by r) v.
End LeaveRequest.

Module LeaveBalance.
(** Modelled from the spec: [models.LeaveBalance] (section 3), the counters
    of one employee for one calendar year. *)
Record t := mk {
  employee_id : Z;
  year : Z;
  total_leaves : Z;
  used_leaves : Z;
  remaining_leaves : Z
}.

Definition set_used_leaves (v : Z) (b : t) : t :=
  mk (employee_id b) (year b) (total_leaves b) v (remaining_leaves b).

Definition set_remaining_leaves (v : Z) (b : t) : t :=
  mk (employee_id b) (year b) (total_leaves b) (used_leaves b) v.
End LeaveBalance.

(** The tables, each in the order in which the database returns its rows.
    [attendance_seq] is the next value of the primary-key sequence of
    [attendance_records]. *)
Record DB := mkDB {
  employees : list Employee.t;
  attendance_records : list AttendanceRecord.t;
  attendance_entries : list AttendanceEntry.t;
  leave_requests : list LeaveRequest.t;
  leave_balances : list LeaveBalance.t;
  attendance_seq : Z
}.

Definition with_attendance_records (l : list AttendanceRecord.t) (d : DB) : DB :=
  mkDB (employees d) l (attendance_entries d) (leave_requests d)
       (leave_balances d) (attendance_seq d).

Definition with_leave_requests (l : list LeaveRequest.t) (d : DB) : DB :=
  mkDB (employees d) (attendance_records d) (attendance_entries d) l
       (leave_balances d) (attendance_seq d).

Definition with_leave_balances (l : list LeaveBalance.t) (d : DB) : DB :=
  mkDB (employees d) (attendance_records d) (attendance_entries d)
       (leave_requests d) l (attendance_seq d).

Definition with_attendance_seq (n : Z) (d : DB) : DB :=
  mkDB (employees d) (attendance_records d) (attendance_entries d)
       (leave_requests d) (leave_balances d) n.

(** ** Rows of a table *)

Section Tables.
Context {A : Type}.

(** The row that [.first()] returned, written back after its attributes
    were assigned: the first row that satisfies the query's filter. *)
Fixpoint replace_first (p : A -> bool) (v : A) (l : list A) : list A :=
  match l with
  | [] => []
  | x :: tl => if p x then v :: tl else x :: replace_first p v tl
  end.

(** [db.delete(row)] for the row that [.first()] returned. *)
Fixpoint delete_first (p : A -> bool) (l : list A) : list A :=
  match l with
  | [] => []
  | x :: tl => if p x then tl else x :: delete_first p tl
  end.

(** [ORDER BY]: a stable insertion sort; [le a b] says that [a] may come
    before [b]. *)
Fixpoint insert_by (le : A -> A -> bool) (a : A) (l : list A) : list A :=
  match l with
  | [] => [a]
  | x :: tl => if le a x then a :: l else x :: insert_by le a tl
  end.

Fixpoint order_by (le : A -> A -> bool) (l : list A) : list A :=
  match l with
  | [] => []
  | x :: tl => insert_by le x (order_by le tl)
  end.

(** [.offset(skip).limit(limit)] *)
Definition page (skip limit : nat) (l : list A) : list A :=
  firstn limit (skipn skip l).
End Tables.

(** ** Requests: a session over the database, with exceptions *)

Inductive exn :=
| HTTPException (status_code : Z) (detail : string)
| ValueError.

Inductive result (A : Type) :=
| Ok (a : A)
| Raised (e : exn).
Arguments Ok {A} a.
Arguments Raised {A} e.

(** What is stored, and what the session of the request sees: assignments
    to loaded rows, [db.add] and [db.delete] change [pending] and reach
    [committed] at [db.commit()]. *)
Record Session := mkSession { committed : DB; pending : DB }.

Definition M (A : Type) : Type := Session -> result A * Session.

Definition ret {A} (a : A) : M A := fun s => (Ok a, s).

Definition bind {A B} (m : M A) (k : A -> M B) : M B :=
  fun s => match m s with
           | (Ok a, s') => k a s'
           | (Raised e, s') => (Raised e, s')
           end.

Definition raise {A} (e : exn) : M A := fun s => (Raised e, s).

Declare Scope session_scope.
Delimit Scope session_scope with session.
Notation "x <- m ;; k" := (bind m (fun x => k))
  (at level 61, m at next level, right associativity) : session_scope.
Notation "m ;;; k" := (bind m (fun _ => k))
  (at level 61, right associativity) : session_scope.
Open Scope session_scope.

(** The tables as the session sees them. *)
Definition query : M DB := fun s => (Ok (pending s), s).

Definition modify (f : DB -> DB) : M unit :=
  fun s => (Ok tt, mkSession (committed s) (f (pending s))).

(** [db.commit()] *)
Definition commit : M unit :=
  fun s => (Ok tt, mkSession (pending s) (pending s)).

(** A computation that reads no table: its value or its exception. *)
Definition lift {A} (r : result A) : M A := fun s => (r, s).

(** A partial Python operation: [None] is the raised [ValueError]. *)
Definition value_of {A} (o : option A) : result A :=
  match o with Some a => Ok a | None => Raised ValueError end.

Definition value_or_raise {A} (o : option A) : M A := lift (value_of o).

Definition bind_result {A B} (r : result A) (k : A -> result B) : result B :=
  match r with Ok a => k a | Raised e => Raised e end.

Notation "'let?' x := r 'in' k" := (bind_result r (fun x => k))
  (at level 10, x name, r at level 100, k at level 200).

(** One request against the stored database: the response or the
    exception, and the database that is stored afterwards. *)
Definition run {A} (handler : M A) (db : DB) : result A * DB :=
  let (r, s) := handler (mkSession db db) in (r, committed s).

Definition succeeds {A} (out : result A * DB) : bool :=
  match fst out with Ok _ => true | Raised _ => false end.

(** ** String helpers of [parse_clock_time] *)

Fixpoint contains_char (c : ascii) (s : string) : bool :=
  match s with
  | EmptyString => false
  | String a tl => Ascii.eqb a c || contains_char c tl
  end.

(** [s.split(c)] *)
Fixpoint split_char (c : ascii) (s : string) : list string :=
  match s with
  | EmptyString => [EmptyString]
  | String a tl =>
      if Ascii.eqb a c then EmptyString :: split_char c tl
      else match split_char c tl with
           | hd :: rest => String a hd :: rest
           | [] => [String a EmptyString]
           end
  end.

(** [s.replace(c, by)] for a one-character pattern. *)
Fixpoint replace_char (c : ascii) (by_ : string) (s : string) : string :=
  match s with
  | EmptyString => EmptyString
  | String a tl =>
      if Ascii.eqb a c then by_ ++ replace_char c by_ tl
      else String a (replace_char c by_ tl)
  end.

(** ** Request and response bodies *)

Module MarkAttendanceRequest.
Record t := mk {
  employeeId : string;
  clockIn : string;
  clockOut : option string;
  status : string
}.
End MarkAttendanceRequest.

Module UpdateAttendanceRequest.
Record t := mk {
  approvalStatus : option string;
  clockOut : option string;
  status : option string
}.
End UpdateAttendanceRequest.

(** The dictionary that the single-record attendance endpoints return. *)
Module AttendanceView.
Record t := mk {
  id : string;
  employeeId : string;
  employeeName : string;
  date : string;
  clockIn : option string;
  clockOut : option string;
  status : string;
  approvalStatus : option string
}.
End AttendanceView.

(** An element of the list that [get_all_attendance] returns. *)
Module AttendanceItem.
Record t := mk {
  view : AttendanceView.t;
  entriesCount : Z;
  isConfirmed : bool;
  confirmedAt : option string
}.
End AttendanceItem.

Module ConfirmResponse.
Record t := mk {
  id : string;
  isConfirmed : bool;
  confirmedAt : option string;
  message : string
}.
End ConfirmResponse.

(** The dictionary that the leave listings return for one request. *)
Module LeaveView.
Record t := mk {
  id : string;
  employeeId : string;
  employeeName : string;
  type : string;
  startDate : string;
  endDate : string;
  status : string;
  reason : string;
  appliedDate : string;
  daysRequested : Z
}.
End LeaveView.

Module StatusResponse.
Record t := mk { id : string; status : string; message : string }.
End StatusResponse.

(** ** Queries shared by the endpoints *)

(** [db.query(models.Employee).filter(models.Employee.id == i).first()] *)
Definition employee_by_id (db : DB) (i : Z) : option Employee.t :=
  find (fun e => Employee.id e =? i) (employees db).

(** [f"{emp.first_name} {emp.last_name}" if emp else "Unknown"] *)
Definition emp_name (emp : option Employee.t) : string :=
  match emp with
  | Some e => Employee.first_name e ++ " " ++ Employee.last_name e
  | None => "Unknown"
  end.

(** The ids of the employees whose [manager_id] is [uid], followed by
    [uid] itself: [subordinate_ids] after the [append]. *)
Definition subordinate_ids (db : DB) (uid : Z) : list Z :=
  (map Employee.id
       (filter (fun e => option_eqb Z.eqb (Employee.manager_id e) (Some uid))
               (employees db)) ++ [uid])%list.

(** [column.in_(ids)] *)
Definition in_ (ids : list Z) (x : Z) : bool := existsb (Z.eqb x) ids.

(** The number of entries of an attendance record. *)
Definition entries_count (db : DB) (rid : Z) : Z :=
  Z.of_nat (List.length (filter (fun e => AttendanceEntry.attendance_record_id e =? rid)
                           (attendance_entries db))).

Definition attendance_view (db : DB) (r : AttendanceRecord.t)
    (approval : option string) : AttendanceView.t :=
  AttendanceView.mk
    (str_int (AttendanceRecord.id r))
    (str_int (AttendanceRecord.employee_id r))
    (emp_name (employee_by_id db (AttendanceRecord.employee_id r)))
    (date.str (AttendanceRecord.date r))
    (option_map datetime.strftime_HM (AttendanceRecord.check_in_time r))
    (option_map datetime.strftime_HM (AttendanceRecord.check_out_time r))
    (str_or (AttendanceRecord.status r) "Present")
    approval.

(** [rec.approval_status or "Pending_Manager"] *)
Definition approval_or_default (r : AttendanceRecord.t) : option string :=
  Some (str_or (AttendanceRecord.approval_status r) "Pending_Manager").

(** Orders on nullable timestamp columns; a NULL sorts as the largest
    value. *)
Definition opt_key_le (a b : option datetime.t) : bool :=
  match a, b with
  | _, None => true
  | None, Some _ => false
  | Some x, Some y => datetime.key x <=? datetime.key y
  end.

Definition date_desc (a b : AttendanceRecord.t) : bool :=
  date.leb (AttendanceRecord.date b) (AttendanceRecord.date a).

(** ** The attendance endpoints *)

Section Router.

(** Python's [int(s)] on a string and [datetime.fromisoformat(s)]; [None]
    stands for the [ValueError] they raise. *)
Variable int : string -> option Z.
Variable fromisoformat : string -> option datetime.t.

(** The clock: [date.today()] and [datetime.utcnow()]. *)
Variable today : date.t.
Variable utcnow : datetime.t.

Definition get_all_attendance_rows (db : DB) (skip limit : nat)
    (user : Employee.t) : list AttendanceRecord.t :=
  let q := attendance_records db in
  let q :=
    match Employee.role user with
    | RoleEnum.employee =>
        filter (fun r => AttendanceRecord.employee_id r =? Employee.id user) q
    | RoleEnum.manager =>
        let ids := subordinate_ids db (Employee.id user) in
        filter (fun r => in_ ids (AttendanceRecord.employee_id r)) q
    | RoleEnum.admin => q
    end in
  page skip limit (order_by date_desc q).

Definition attendance_item (db : DB) (r : AttendanceRecord.t) : AttendanceItem.t :=
  AttendanceItem.mk
    (attendance_view db r (approval_or_default r))
    (entries_count db (AttendanceRecord.id r))
    (match AttendanceRecord.is_confirmed r with Some b => b | None => false end)
    (option_map datetime.strftime_HM (AttendanceRecord.confirmed_at r)).

Definition get_all_attendance (skip limit : nat) (user : Employee.t)
    : M (list AttendanceItem.t) :=
  db <- query ;;
  ret (map (attendance_item db) (get_all_attendance_rows db skip limit user)).

(** The column that [getattr(models.AttendanceRecord, sort_by)] selects,
    as an ascending order on rows; [None] when [sort_by] is not one of
    the allowed fields. *)
Definition sort_column (sort_by : string)
    : option (AttendanceRecord.t -> AttendanceRecord.t -> bool) :=
  if String.eqb sort_by "date" then
    Some (fun a b => date.leb (AttendanceRecord.date a) (AttendanceRecord.date b))
  else if String.eqb sort_by "check_in_time" then
    Some (fun a b => opt_key_le (AttendanceRecord.check_in_time a)
                                (AttendanceRecord.check_in_time b))
  else if String.eqb sort_by "check_out_time" then
    Some (fun a b => opt_key_le (AttendanceRecord.check_out_time a)
                                (AttendanceRecord.check_out_time b))
  else None.

Definition list_attendance (skip limit : nat) (employee_id : option Z)
    (start_date end_date : option date.t) (sort_by : option string)
    (order : string) (user : Employee.t)
    : M (Z * list AttendanceRecord.t) :=
  if negb (String.eqb order "asc" || String.eqb order "desc") then
    raise (HTTPException 400 "order must be 'asc' or 'desc'")
  else
    db <- query ;;
    let q := attendance_records db in
    let q :=
      match Employee.role user with
      | RoleEnum.employee =>
          filter (fun r => AttendanceRecord.employee_id r =? Employee.id user) q
      | _ =>
          match employee_id with
          | Some e =>
              if e =? 0 then q
              else filter (fun r => AttendanceRecord.employee_id r =? e) q
          | None => q
          end
      end in
    let q :=
      match start_date with
      | Some d => filter (fun r => date.leb d (AttendanceRecord.date r)) q
      | None => q
      end in
    let q :=
      match end_date with
      | Some d => filter (fun r => date.leb (AttendanceRecord.date r) d) q
      | None => q
      end in
    q <- (if truthy sort_by then
            match sort_column (str_or sort_by "") with
            | None =>
                raise (HTTPException 400
                  "Invalid sort_by field. Allowed: ['check_in_time', 'check_out_time', 'date']")
            | Some le =>
                if String.eqb order "asc" then ret (order_by le q)
                else ret (order_by (fun a b => le b a) q)
            end
          else ret (order_by date_desc q)) ;;
    ret (Z.of_nat (List.length q), page skip limit q).

Definition get_attendance_by_id (record_id : string) (user : Employee.t)
    : M AttendanceView.t :=
  rid <- value_or_raise (int record_id) ;;
  db <- query ;;
  match find (fun r => AttendanceRecord.id r =? rid) (attendance_records db) with
  | None => raise (HTTPException 404 "Attendance record not found")
  | Some rec => ret (attendance_view db rec (approval_or_default rec))
  end.

Definition parse_clock_time (time_str : string) (day : date.t)
    : result (option datetime.t) :=
  if negb (truthy (Some time_str)) then Ok None
  else if (Nat.leb (String.length time_str) 8) && contains_char ":" time_str
          && negb (contains_char "-" time_str) then
    let parts := split_char ":" time_str in
    let? hour := value_of (int (nth 0 parts "")) in
    let? minute := value_of (int (nth 1 parts "")) in
    let? second := (if Nat.ltb 2 (List.length parts)
                    then value_of (int (nth 2 parts ""))
                    else Ok 0) in
    let? t := value_of (datetime.make day hour minute second) in
    Ok (Some t)
  else
    let? t := value_of (fromisoformat (replace_char "Z" "+00:00" time_str)) in
    Ok (Some t).

(** [parse_clock_time(s, day) if s else None] on an optional field. *)
Definition parse_optional_clock (s : option string) (day : date.t)
    : result (option datetime.t) :=
  if truthy s then parse_clock_time (str_or s "") day else Ok None.

Definition mark_attendance (payload : MarkAttendanceRequest.t)
    (user : Employee.t) : M AttendanceView.t :=
  employee_id <- value_or_raise (int (MarkAttendanceRequest.employeeId payload)) ;;
  db <- query ;;
  let todays := fun r => (AttendanceRecord.employee_id r =? employee_id)
                         && date.eqb (AttendanceRecord.date r) today in
  clock_in_time <- lift (parse_clock_time (MarkAttendanceRequest.clockIn payload) today) ;;
  rec <- match find todays (attendance_records db) with
         | Some rec =>
             rec <- (if truthy (MarkAttendanceRequest.clockOut payload) then
                       t <- lift (parse_clock_time
                                    (str_or (MarkAttendanceRequest.clockOut payload) "")
                                    today) ;;
                       ret (AttendanceRecord.set_check_out_time t rec)
                     else ret rec) ;;
             let rec := AttendanceRecord.set_status
                          (Some (MarkAttendanceRequest.status payload)) rec in
             modify (fun d => with_attendance_records
                                (replace_first todays rec (attendance_records d)) d) ;;;
             commit ;;;
             ret rec
         | None =>
             let emp := employee_by_id db employee_id in
             let initial_approval_status :=
               match emp with
               | Some e => if RoleEnum.eqb (Employee.role e) RoleEnum.manager
                           then "Pending_Admin" else "Pending_Manager"
               | None => "Pending_Manager"
               end in
             check_out <- lift (parse_optional_clock
                                  (MarkAttendanceRequest.clockOut payload) today) ;;
             (* the columns that the constructor is not given take their
                defaults: [is_confirmed] false, [confirmed_at] NULL *)
             let rec := AttendanceRecord.mk (attendance_seq db) employee_id today
                          clock_in_time check_out
                          (Some (MarkAttendanceRequest.status payload))
                          (Some initial_approval_status) (Some false) None in
             modify (fun d => with_attendance_seq (attendance_seq d + 1)
                                (with_attendance_records
                                   (attendance_records d ++ [rec])%list d)) ;;;
             commit ;;;
             ret rec
         end ;;
  db <- query ;;
  ret (attendance_view db rec (approval_or_default rec)).

(** [payload and payload.approvalStatus], and the like. *)
Definition given (payload : option UpdateAttendanceRequest.t)
    (field : UpdateAttendanceRequest.t -> option string) : bool :=
  match payload with
  | Some p => truthy (field p)
  | None => false
  end.

Definition field_of (payload : option UpdateAttendanceRequest.t)
    (field : UpdateAttendanceRequest.t -> option string) : string :=
  match payload with
  | Some p => str_or (field p) ""
  | None => ""
  end.

(** [employee and employee.manager_id != user.id] *)
Definition reports_to_other (employee : option Employee.t) (user : Employee.t) : bool :=
  match employee with
  | Some e => negb (option_eqb Z.eqb (Employee.manager_id e) (Some (Employee.id user)))
  | None => false
  end.

Definition update_attendance (record_id : string)
    (payload : option UpdateAttendanceRequest.t) (user : Employee.t)
    : M (AttendanceView.t * string) :=
  rid <- value_or_raise (int record_id) ;;
  db <- query ;;
  let by_id := fun r => AttendanceRecord.id r =? rid in
  match find by_id (attendance_records db) with
  | None => raise (HTTPException 404 "Attendance record not found")
  | Some rec =>
      let employee := employee_by_id db (AttendanceRecord.employee_id rec) in
      rec <- match Employee.role user with
             | RoleEnum.employee =>
                 if negb (AttendanceRecord.employee_id rec =? Employee.id user) then
                   raise (HTTPException 403 "You can only update your own attendance")
                 else if given payload UpdateAttendanceRequest.approvalStatus then
                   raise (HTTPException 403 "Employees cannot change approval status")
                 else ret rec
             | RoleEnum.manager =>
                 if AttendanceRecord.employee_id rec =? Employee.id user then ret rec
                 else if given payload UpdateAttendanceRequest.approvalStatus then
                   if reports_to_other employee user then
                     raise (HTTPException 403
                       "You can only verify attendance for your direct reports")
                   else if negb (option_eqb String.eqb
                                   (AttendanceRecord.approval_status rec)
                                   (Some "Pending_Manager")) then
                     raise (HTTPException 400
                       "This attendance record is not pending manager approval")
                   else ret (AttendanceRecord.set_approval_status
                               (Some "Pending_Admin") rec)
                 else ret rec
             | RoleEnum.admin =>
                 if given payload UpdateAttendanceRequest.approvalStatus then
                   ret (AttendanceRecord.set_approval_status (Some "Approved") rec)
                 else ret rec
             end ;;
      rec <- (if given payload UpdateAttendanceRequest.clockOut then
                clock_out_time <- lift (parse_clock_time
                                          (field_of payload UpdateAttendanceRequest.clockOut)
                                          (AttendanceRecord.date rec)) ;;
                match clock_out_time with
                | Some t => ret (AttendanceRecord.set_check_out_time (Some t) rec)
                | None => ret rec
                end
              else ret rec) ;;
      let rec := if given payload UpdateAttendanceRequest.status
                 then AttendanceRecord.set_status
                        (Some (field_of payload UpdateAttendanceRequest.status)) rec
                 else rec in
      modify (fun d => with_attendance_records
                         (replace_first by_id rec (attendance_records d)) d) ;;;
      commit ;;;
      ret (attendance_view db rec (AttendanceRecord.approval_status rec),
           "Attendance updated successfully")
  end.

Definition confirm_attendance (record_id : string) (user : Employee.t)
    : M ConfirmResponse.t :=
  rid <- value_or_raise (int record_id) ;;
  db <- query ;;
  let by_id := fun r => AttendanceRecord.id r =? rid in
  match find by_id (attendance_records db) with
  | None => raise (HTTPException 404 "Attendance record not found")
  | Some rec =>
      if negb (AttendanceRecord.employee_id rec =? Employee.id user)
         && negb (RoleEnum.eqb (Employee.role user) RoleEnum.admin) then
        raise (HTTPException 403 "You can only confirm your own attendance")
      else if match AttendanceRecord.is_confirmed rec with
              | Some b => b
              | None => false
              end then
        raise (HTTPException 400 "Attendance already confirmed")
      else if (entries_count db (AttendanceRecord.id rec) =? 0)
              && negb (is_some (AttendanceRecord.check_in_time rec)) then
        raise (HTTPException 400 "No attendance entries to confirm")
      else
        let rec := AttendanceRecord.set_is_confirmed (Some true) rec in
        let rec := AttendanceRecord.set_confirmed_at (Some utcnow) rec in
        let rec := AttendanceRecord.set_approval_status (Some "Pending_Manager") rec in
        modify (fun d => with_attendance_records
                           (replace_first by_id rec (attendance_records d)) d) ;;;
        commit ;;;
        ret (ConfirmResponse.mk
               (str_int (AttendanceRecord.id rec)) true
               (option_map datetime.strftime_HM (AttendanceRecord.confirmed_at rec))
               "Attendance confirmed and submitted for verification")
  end.

(** ** The leave endpoints *)

(** [(lr.end_date - lr.start_date).days + 1] *)
Definition days_requested (lr : LeaveRequest.t) : Z :=
  date.sub_days (LeaveRequest.end_date lr) (LeaveRequest.start_date lr) + 1.

Definition status_map (s : LeaveStatus.t) : string :=
  match s with
  | LeaveStatus.pending => "Pending_Manager"
  | LeaveStatus.approved => "Approved"
  | LeaveStatus.rejected => "Rejected"
  end.

Definition leave_view (db : DB) (lr : LeaveRequest.t) : LeaveView.t :=
  LeaveView.mk
    (str_int (LeaveRequest.id lr))
    (str_int (LeaveRequest.employee_id lr))
    (emp_name (employee_by_id db (LeaveRequest.employee_id lr)))
    "Vacation"
    (date.str (LeaveRequest.start_date lr))
    (date.str (LeaveRequest.end_date lr))
    (status_map (LeaveRequest.status lr))
    (str_or (LeaveRequest.reason lr) "")
    (match LeaveRequest.applied_at lr with
     | Some t => datetime.isoformat t
     | None => date.str today
     end)
    (days_requested lr).

(** The rows of a leave listing for [user]; the two listings differ in
    their order only. *)
Definition leave_scope (db : DB) (user : Employee.t) : list LeaveRequest.t :=
  match Employee.role user with
  | RoleEnum.admin => leave_requests db
  | RoleEnum.manager =>
      let ids := subordinate_ids db (Employee.id user) in
      filter (fun lr => in_ ids (LeaveRequest.employee_id lr)) (leave_requests db)
  | RoleEnum.employee =>
      filter (fun lr => LeaveRequest.employee_id lr =? Employee.id user)
             (leave_requests db)
  end.

Definition get_all_leaves_rows (db : DB) (user : Employee.t) : list LeaveRequest.t :=
  order_by (fun a b => opt_key_le (LeaveRequest.applied_at b) (LeaveRequest.applied_at a))
           (leave_scope db user).

Definition get_all_leaves (user : Employee.t) : M (list LeaveView.t) :=
  db <- query ;;
  ret (map (leave_view db) (get_all_leaves_rows db user)).

Definition get_leave_list_rows (db : DB) (user : Employee.t) : list LeaveRequest.t :=
  order_by (fun a b => LeaveRequest.id b <=? LeaveRequest.id a) (leave_scope db user).

Definition get_leave_list (user : Employee.t) : M (list LeaveView.t) :=
  db <- query ;;
  ret (map (leave_view db) (get_leave_list_rows db user)).

Definition delete_leave (leave_id : string) (user : Employee.t) : M string :=
  lid <- value_or_raise (int leave_id) ;;
  db <- query ;;
  let by_id := fun lr => LeaveRequest.id lr =? lid in
  match find by_id (leave_requests db) with
  | None => raise (HTTPException 404 "Leave request not found")
  | Some lr =>
      if negb (LeaveRequest.employee_id lr =? Employee.id user)
         && RoleEnum.eqb (Employee.role user) RoleEnum.employee then
        raise (HTTPException 403 "Cannot delete others' leave requests")
      else if negb (LeaveStatus.eqb (LeaveRequest.status lr) LeaveStatus.pending) then
        raise (HTTPException 400 "Can only delete pending leave requests")
      else
        modify (fun d => with_leave_requests
                           (delete_first by_id (leave_requests d)) d) ;;;
        commit ;;;
        ret "Leave request deleted"
  end.

(** [filter_by(employee_id=..., year=...)] on the balances. *)
Definition balance_of (employee_id year : Z) (b : LeaveBalance.t) : bool :=
  (LeaveBalance.employee_id b =? employee_id) && (LeaveBalance.year b =? year).

Definition is_admin_or_manager (user : Employee.t) : bool :=
  RoleEnum.eqb (Employee.role user) RoleEnum.admin
  || RoleEnum.eqb (Employee.role user) RoleEnum.manager.

Definition approve_leave_post (leave_id : string) (user : Employee.t)
    : M StatusResponse.t :=
  if negb (is_admin_or_manager user) then
    raise (HTTPException 403 "Only admin/manager can approve")
  else
    match int leave_id with
    | None => raise (HTTPException 400 "Invalid leave ID")
    | Some leave_id_int =>
        db <- query ;;
        let by_id := fun lr => LeaveRequest.id lr =? leave_id_int in
        match find by_id (leave_requests db) with
        | None => raise (HTTPException 404 "Leave request not found")
        | Some lr =>
            if negb (LeaveStatus.eqb (LeaveRequest.status lr) LeaveStatus.pending) then
              raise (HTTPException 400 "Leave request not pending")
            else
              (if RoleEnum.eqb (Employee.role user) RoleEnum.manager then
                 match employee_by_id db (LeaveRequest.employee_id lr) with
                 | None => raise (HTTPException 404 "Employee not found")
                 | Some employee =>
                     if negb (option_eqb Z.eqb (Employee.manager_id employee)
                                (Some (Employee.id user))) then
                       raise (HTTPException 403
                         "You can only approve leaves for your direct reports")
                     else ret tt
                 end
               else ret tt) ;;;
              let days := days_requested lr in
              let current_year := date.year today in
              let mine := balance_of (LeaveRequest.employee_id lr) current_year in
              match find mine (leave_balances db) with
              | Some leave_balance =>
                  let leave_balance :=
                    LeaveBalance.set_used_leaves
                      (LeaveBalance.used_leaves leave_balance + days) leave_balance in
                  let leave_balance :=
                    LeaveBalance.set_remaining_leaves
                      (LeaveBalance.total_leaves leave_balance
                       - LeaveBalance.used_leaves leave_balance) leave_balance in
                  modify (fun d => with_leave_balances
                                     (replace_first mine leave_balance (leave_balances d)) d)
              | None =>
                  let leave_balance :=
                    LeaveBalance.mk (LeaveRequest.employee_id lr) current_year
                                    17 days (17 - days) in
                  modify (fun d => with_leave_balances
                                     (leave_balances d ++ [leave_balance])%list d)
              end ;;;
              let lr := LeaveRequest.set_status LeaveStatus.approved lr in
              let lr := LeaveRequest.set_reviewed_by (Some (Employee.id user)) lr in
              let lr := LeaveRequest.set_reviewed_at (Some utcnow) lr in
              modify (fun d => with_leave_requests
                                 (replace_first by_id lr (leave_requests d)) d) ;;;
              commit ;;;
              ret (StatusResponse.mk (str_int (LeaveRequest.id lr)) "Approved"
                                     "Leave approved successfully")
        end
    end.


End Router.

(** ** Sample data: a small organisation *)

Module Sample.
(** A reading of [int(s)] on plain decimal numerals, and a
    [fromisoformat] that rejects every string. *)
Definition int_decimal (s : string) : option Z :=
  match s with
  | EmptyString => None
  | _ => option_map Z.of_int (NilZero.int_of_string s)
  end.

Definition no_iso (s : string) : option datetime.t := None.

Definition day1 : date.t := date.mk 2026 3 2.
Definition nine : datetime.t := datetime.mk day1 9 0 0.
Definition noon : datetime.t := datetime.mk day1 12 0 0.

Definition ada := Employee.mk 1 "Ada" "Admin" "ada@company.com" RoleEnum.admin None None.
Definition max := Employee.mk 2 "Max" "Manager" "max@company.com" RoleEnum.manager None None.
Definition eve := Employee.mk 3 "Eve" "Employee" "eve@company.com" RoleEnum.employee None (Some 2).
Definition bob := Employee.mk 4 "Bob" "Other" "bob@company.com" RoleEnum.employee None None.
Definition ned := Employee.mk 5 "Ned" "Next" "ned@company.com" RoleEnum.manager None None.

Definition staff : list Employee.t := [ada; max; eve; bob; ned].

(** Eve's record of the day, clocked in, not confirmed. *)
Definition eve_rec : AttendanceRecord.t :=
  AttendanceRecord.mk 1 3 day1 (Some nine) None (Some "Present")
                      (Some "Pending_Manager") (Some false) None.

(** Max's own record, confirmed and waiting for a manager. *)
Definition max_rec : AttendanceRecord.t :=
  AttendanceRecord.mk 2 2 day1 (Some nine) None (Some "Present")
                      (Some "Pending_Manager") (Some true) (Some noon).

(** Bob's record; Bob reports to nobody. *)
Definition bob_rec : AttendanceRecord.t :=
  AttendanceRecord.mk 3 4 day1 (Some nine) None (Some "Present")
                      (Some "Pending_Manager") (Some true) (Some noon).

Definition eve_leave : LeaveRequest.t :=
  LeaveRequest.mk 1 3 1 (date.mk 2026 3 1) (date.mk 2026 3 3) (Some "trip")
                  LeaveStatus.pending (Some nine) None None.

Definition bob_leave : LeaveRequest.t :=
  LeaveRequest.mk 2 4 1 (date.mk 2026 4 6) (date.mk 2026 4 6) None
                  LeaveStatus.approved (Some nine) (Some 1) (Some noon).

Definition db : DB :=
  mkDB staff [eve_rec; max_rec; bob_rec] [] [eve_leave; bob_leave]
       [LeaveBalance.mk 3 2026 17 0 17] 4.

(** The organisation before anybody clocked in. *)
Definition fresh_db : DB :=
  mkDB staff [] [] [eve_leave] [LeaveBalance.mk 3 2026 17 0 17] 1.

(** Update payloads: an approval alone, an approval with a clock-out, a
    clock-out alone. *)
Definition approval_only : UpdateAttendanceRequest.t :=
  UpdateAttendanceRequest.mk (Some "Pending_Admin") None None.

(** A second organisation with a chain of two levels: Zoe reports to
    Ned, and Ned reports to Max. *)
Definition ned2 := Employee.mk 5 "Ned" "Next" "ned@company.com" RoleEnum.manager None (Some 2).
Definition zoe := Employee.mk 6 "Zoe" "Zed" "zoe@company.com" RoleEnum.employee None (Some 5).

Definition ned_rec : AttendanceRecord.t :=
  AttendanceRecord.mk 4 5 day1 (Some nine) None (Some "Present")
                      (Some "Pending_Admin") (Some false) None.
Definition zoe_rec : AttendanceRecord.t :=
  AttendanceRecord.mk 5 6 day1 (Some nine) None (Some "Present")
                      (Some "Pending_Manager") (Some false) None.

Definition chain_db : DB :=
  mkDB [ada; max; eve; bob; ned2; zoe]
       [eve_rec; max_rec; bob_rec; ned_rec; zoe_rec] [] [eve_leave; bob_leave] [] 6.
End Sample.

(** ** The workflow rules, as the specification words them *)

(** The initial approval status that the workflow gives to a new record,
    by the role of its owner. *)
Definition initial_status_for (owner : option Employee.t) : string :=
  match owner with
  | Some e =>
      match Employee.role e with
      | RoleEnum.manager => "Pending_Admin"
      | RoleEnum.employee | RoleEnum.admin => "Pending_Manager"
      end
  | None => "Pending_Manager"
  end.


(** A direct report of [uid]: an employee row whose manager reference is
    [uid], one level only. *)
Definition direct_report (db : DB) (uid eid : Z) : Prop :=
  exists e, In e (employees db)
            /\ Employee.id e = eid /\ Employee.manager_id e = Some uid.

(** The visibility rule of the listings: whose rows [user] may see. *)
Definition visible (db : DB) (user : Employee.t) (owner_id : Z) : Prop :=
  match Employee.role user with
  | RoleEnum.employee => owner_id = Employee.id user
  | RoleEnum.manager =>
      owner_id = Employee.id user \/ direct_report db (Employee.id user) owner_id
  | RoleEnum.admin => True
  end.

(** ** The remaining attendance and leave endpoints *)

Module CreateAttendanceEntryRequest.
Record t := mk { entryType : string; reason : option string }.
End CreateAttendanceEntryRequest.

(** The dictionary that the entry endpoints return for one entry. *)
Module EntryView.
Record t := mk {
  id : string;
  attendanceRecordId : string;
  entryType : string;
  timestamp : string;
  reason : string
}.
End EntryView.

Module CreateLeaveRequest.
Record t := mk {
  employeeId : option string;
  type : string;
  startDate : string;
  endDate : string;
  reason : string
}.
End CreateLeaveRequest.

Module LeaveRequestCreate.
(** Modelled from the spec: [schemas.LeaveRequestCreate], the body of
    [apply_leave_compat]: a leave type, an inclusive date range and a
    reason (section 3, LeaveRequest). *)
Record t := mk {
  leave_type_id : Z;
  start_date : date.t;
  end_date : date.t;
  reason : option string
}.
End LeaveRequestCreate.

(** The dictionary that [apply_leave_compat] returns. *)
Module ApplyLeaveResponse.
Record t := mk {
  id : Z;
  employee_id : Z;
  leave_type : Z * string;
  start_date : string;
  end_date : string;
  status : string
}.
End ApplyLeaveResponse.

(** [lr.status.value.upper()] *)
Definition status_upper (s : LeaveStatus.t) : string :=
  match s with
  | LeaveStatus.pending => "PENDING"
  | LeaveStatus.approved => "APPROVED"
  | LeaveStatus.rejected => "REJECTED"
  end.

Definition entry_view (e : AttendanceEntry.t) : EntryView.t :=
  EntryView.mk
    (str_int (AttendanceEntry.id e))
    (str_int (AttendanceEntry.attendance_record_id e))
    (AttendanceEntry.entry_type e)
    (datetime.strftime_HM (AttendanceEntry.timestamp e))
    (str_or (AttendanceEntry.reason e) "").

Definition with_attendance_entries (l : list AttendanceEntry.t) (d : DB) : DB :=
  mkDB (employees d) (attendance_records d) l (leave_requests d)
       (leave_balances d) (attendance_seq d).

Definition timestamp_asc (a b : AttendanceEntry.t) : bool :=
  datetime.key (AttendanceEntry.timestamp a) <=? datetime.key (AttendanceEntry.timestamp b).

Section RouterRest.

(** Python's [int(s)] and [date.fromisoformat(s)]; [None] stands for the
    [ValueError] they raise. *)
Variable int : string -> option Z.
Variable date_fromisoformat : string -> option date.t.

(** The clock: [date.today()] and [datetime.now()]. *)
Variable today : date.t.
Variable now : datetime.t.

(** What the database gives a new row: the primary key of a new
    attendance entry and of a new leave request, and the default of the
    [applied_at] column. *)
Variable entry_key : Z.
Variable leave_key : Z.
Variable applied_at_default : option datetime.t.

Definition get_leave_balance (db : DB) (employee_id : Z) : Z :=
  let current_year := date.year today in
  match find (balance_of employee_id current_year) (leave_balances db) with
  | Some balance => LeaveBalance.remaining_leaves balance
  | None => 17
  end.

Definition delete_attendance (record_id : string) (user : Employee.t) : M string :=
  if negb (RoleEnum.eqb (Employee.role user) RoleEnum.admin) then
    raise (HTTPException 403 "Only admin can delete attendance records")
  else
    rid <- value_or_raise (int record_id) ;;
    db <- query ;;
    let by_id := fun r => AttendanceRecord.id r =? rid in
    match find by_id (attendance_records db) with
    | None => raise (HTTPException 404 "Attendance record not found")
    | Some rec =>
        modify (fun d => with_attendance_records
                           (delete_first by_id (attendance_records d)) d) ;;;
        commit ;;;
        ret "Attendance record deleted"
    end.

Definition get_attendance_entries (record_id : string) (user : Employee.t)
    : M (list EntryView.t) :=
  rid <- value_or_raise (int record_id) ;;
  db <- query ;;
  match find (fun r => AttendanceRecord.id r =? rid) (attendance_records db) with
  | None => raise (HTTPException 404 "Attendance record not found")
  | Some rec =>
      if RoleEnum.eqb (Employee.role user) RoleEnum.employee
         && negb (AttendanceRecord.employee_id rec =? Employee.id user) then
        raise (HTTPException 403 "You can only view your own attendance entries")
      else
        let entries :=
          order_by timestamp_asc
            (filter (fun e => AttendanceEntry.attendance_record_id e =? rid)
                    (attendance_entries db)) in
        ret (map entry_view entries)
  end.

Definition create_attendance_entry (record_id : string)
    (payload : CreateAttendanceEntryRequest.t) (user : Employee.t)
    : M (EntryView.t * string) :=
  rid <- value_or_raise (int record_id) ;;
  db <- query ;;
  let by_id := fun r => AttendanceRecord.id r =? rid in
  match find by_id (attendance_records db) with
  | None => raise (HTTPException 404 "Attendance record not found")
  | Some rec =>
      let entryType := CreateAttendanceEntryRequest.entryType payload in
      if RoleEnum.eqb (Employee.role user) RoleEnum.employee
         && negb (AttendanceRecord.employee_id rec =? Employee.id user) then
        raise (HTTPException 403 "You can only add entries to your own attendance")
      else if negb (String.eqb entryType "in" || String.eqb entryType "out") then
        raise (HTTPException 400 "Entry type must be 'in' or 'out'")
      else
        let entry := AttendanceEntry.mk entry_key rid entryType now
                       (CreateAttendanceEntryRequest.reason payload) in
        modify (fun d => with_attendance_entries
                           (attendance_entries d ++ [entry])%list d) ;;;
        (if String.eqb entryType "out" then
           modify (fun d => with_attendance_records
                              (replace_first by_id
                                 (AttendanceRecord.set_check_out_time (Some now) rec)
                                 (attendance_records d)) d)
         else ret tt) ;;;
        commit ;;;
        ret (entry_view entry, "Check-" ++ entryType ++ " recorded successfully")
  end.

Definition delete_attendance_entry (record_id entry_id : string) (user : Employee.t)
    : M string :=
  if negb (is_admin_or_manager user) then
    raise (HTTPException 403 "Only admin or manager can delete attendance entries")
  else
    eid <- value_or_raise (int entry_id) ;;
    rid <- value_or_raise (int record_id) ;;
    db <- query ;;
    let mine := fun e => (AttendanceEntry.id e =? eid)
                         && (AttendanceEntry.attendance_record_id e =? rid) in
    match find mine (attendance_entries db) with
    | None => raise (HTTPException 404 "Attendance entry not found")
    | Some entry =>
        modify (fun d => with_attendance_entries
                           (delete_first mine (attendance_entries d)) d) ;;;
        commit ;;;
        ret "Attendance entry deleted"
    end.

Definition get_leave_by_id (leave_id : string) (user : Employee.t) : M LeaveView.t :=
  lid <- value_or_raise (int leave_id) ;;
  db <- query ;;
  match find (fun lr => LeaveRequest.id lr =? lid) (leave_requests db) with
  | None => raise (HTTPException 404 "Leave request not found")
  | Some lr => ret (leave_view today db lr)
  end.

Definition apply_leave_compat (payload : LeaveRequestCreate.t) (user : Employee.t)
    : M ApplyLeaveResponse.t :=
  if date.ltb (LeaveRequestCreate.end_date payload) (LeaveRequestCreate.start_date payload)
  then raise (HTTPException 400 "start_date must be <= end_date")
  else
    let lr := LeaveRequest.mk leave_key (Employee.id user)
                (LeaveRequestCreate.leave_type_id payload)
                (LeaveRequestCreate.start_date payload)
                (LeaveRequestCreate.end_date payload)
                (LeaveRequestCreate.reason payload)
                LeaveStatus.pending applied_at_default None None in
    modify (fun d => with_leave_requests (leave_requests d ++ [lr])%list d) ;;;
    commit ;;;
    ret (ApplyLeaveResponse.mk (LeaveRequest.id lr) (LeaveRequest.employee_id lr)
           (LeaveRequest.leave_type_id lr, "Leave")
           (date.str (LeaveRequest.start_date lr))
           (date.str (LeaveRequest.end_date lr))
           (status_upper (LeaveRequest.status lr))).

Definition create_leave (payload : CreateLeaveRequest.t) (user : Employee.t)
    : M LeaveView.t :=
  start <- value_or_raise (date_fromisoformat (CreateLeaveRequest.startDate payload)) ;;
  end_ <- value_or_raise (date_fromisoformat (CreateLeaveRequest.endDate payload)) ;;
  if date.ltb end_ start then
    raise (HTTPException 400 "Start date must be before end date")
  else
    let lr := LeaveRequest.mk leave_key (Employee.id user) 1 start end_
                (Some (CreateLeaveRequest.reason payload))
                LeaveStatus.pending applied_at_default None None in
    modify (fun d => with_leave_requests (leave_requests d ++ [lr])%list d) ;;;
    commit ;;;
    let days := date.sub_days end_ start + 1 in
    ret (LeaveView.mk
           (str_int (LeaveRequest.id lr))
           (str_int (LeaveRequest.employee_id lr))
           (Employee.first_name user ++ " " ++ Employee.last_name user)
           (CreateLeaveRequest.type payload)
           (date.str (LeaveRequest.start_date lr))
           (date.str (LeaveRequest.end_date lr))
           "Pending_Manager"
           (CreateLeaveRequest.reason payload)
           (match LeaveRequest.applied_at lr with
            | Some t => datetime.isoformat t
            | None => date.str today
            end)
           days).

End RouterRest.

(** More sample data: two entries of Eve's record, and a record that
    has neither a check-in time nor an entry. *)
Module Sample2.
Definition entry_in : AttendanceEntry.t :=
  AttendanceEntry.mk 1 1 "in" Sample.nine None.
Definition entry_out : AttendanceEntry.t :=
  AttendanceEntry.mk 2 1 "out" Sample.noon (Some "lunch").

Definition blank_rec : AttendanceRecord.t :=
  AttendanceRecord.mk 7 3 (date.mk 2026 3 4) None None (Some "Present")
                      (Some "Pending_Manager") (Some false) None.

Definition db : DB :=
  mkDB Sample.staff [Sample.eve_rec; Sample.max_rec; Sample.bob_rec; blank_rec]
       [entry_out; entry_in] [Sample.eve_leave; Sample.bob_leave]
       [LeaveBalance.mk 3 2026 17 0 17] 8.

(** A reading of [date.fromisoformat] on the two strings of the sample
    payloads. *)
Definition iso_date (s : string) : option date.t :=
  if String.eqb s "2026-05-04" then Some (date.mk 2026 5 4)
  else if String.eqb s "2026-05-06" then Some (date.mk 2026 5 6)
  else None.
End Sample2.

(** ** Well-formed attendance tables *)

(** The columns of an attendance record that identify it: its primary
    key, its owner and its day. *)
Definition record_key (r : AttendanceRecord.t) : Z * Z * date.t :=
  (AttendanceRecord.id r, AttendanceRecord.employee_id r, AttendanceRecord.date r).

Definition day_key (r : AttendanceRecord.t) : Z * date.t :=
  (AttendanceRecord.employee_id r, AttendanceRecord.date r).

(** Primary keys are distinct and were drawn from the sequence, and no
    employee has two records for one day. *)
Definition attendance_well_formed (db : DB) : Prop :=
  NoDup (map AttendanceRecord.id (attendance_records db))
  /\ Forall (fun r => AttendanceRecord.id r < attendance_seq db) (attendance_records db)
  /\ NoDup (map day_key (attendance_records db)).

(** ** The moves of the approval status *)

(** What one [update_attendance] by [user] may do to the approval status
    of a record: nothing; a manager's verification of somebody else's
    record, from Pending_Manager to Pending_Admin; an admin's approval,
    from any status. *)
Definition approval_step (user : Employee.t) (a b : AttendanceRecord.t) : Prop :=
  AttendanceRecord.approval_status b = AttendanceRecord.approval_status a
  \/ (Employee.role user = RoleEnum.manager
      /\ AttendanceRecord.employee_id a <> Employee.id user
      /\ AttendanceRecord.approval_status a = Some "Pending_Manager"
      /\ AttendanceRecord.approval_status b = Some "Pending_Admin")
  \/ (Employee.role user = RoleEnum.admin
      /\ AttendanceRecord.approval_status b = Some "Approved").

(** ** The query of [list_attendance] before paging *)

(** The rows left by the role scope, the [employee_id] filter and the
    date range. *)
Definition list_attendance_filtered (db : DB) (employee_id : option Z)
    (start_date end_date : option date.t) (user : Employee.t)
    : list AttendanceRecord.t :=
  let q := attendance_records db in
  let q :=
    match Employee.role user with
    | RoleEnum.employee =>
        filter (fun r => AttendanceRecord.employee_id r =? Employee.id user) q
    | _ =>
        match employee_id with
        | Some e =>
            if e =? 0 then q
            else filter (fun r => AttendanceRecord.employee_id r =? e) q
        | None => q
        end
    end in
  let q :=
    match start_date with
    | Some d => filter (fun r => date.leb d (AttendanceRecord.date r)) q
    | None => q
    end in
  match end_date with
  | Some d => filter (fun r => date.leb (AttendanceRecord.date r) d) q
  | None => q
  end.

(** Those rows in the requested order; [None] when [sort_by] names no
    allowed column. *)
Definition list_attendance_sorted (db : DB) (employee_id : option Z)
    (start_date end_date : option date.t) (sort_by : option string) (order : string)
    (user : Employee.t) : option (list AttendanceRecord.t) :=
  let q := list_attendance_filtered db employee_id start_date end_date user in
  if truthy sort_by then
    match sort_column (str_or sort_by "") with
    | None => None
    | Some le =>
        Some (if String.eqb order "asc" then order_by le q
              else order_by (fun a b => le b a) q)
    end
  else Some (order_by date_desc q).

(** ** What an approval writes *)

(** The database after [approve_leave_post] has passed its checks on the
    request [lr], found under the id [lid]. *)
Definition approve_writes (today : date.t) (utcnow : datetime.t) (db : DB) (lid : Z)
    (lr : LeaveRequest.t) (user : Employee.t) : DB :=
  let days := days_requested lr in
  let mine := balance_of (LeaveRequest.employee_id lr) (date.year today) in
  let balances :=
    match find mine (leave_balances db) with
    | Some b =>
        replace_first mine
          (LeaveBalance.mk (LeaveBalance.employee_id b) (LeaveBalance.year b)
             (LeaveBalance.total_leaves b) (LeaveBalance.used_leaves b + days)
             (LeaveBalance.total_leaves b - (LeaveBalance.used_leaves b + days)))
          (leave_balances db)
    | None =>
        (leave_balances db
         ++ [LeaveBalance.mk (LeaveRequest.employee_id lr) (date.year today)
               17 days (17 - days)])%list
    end in
  with_leave_requests
    (replace_first (fun r => LeaveRequest.id r =? lid)
       (LeaveRequest.mk (LeaveRequest.id lr) (LeaveRequest.employee_id lr)
          (LeaveRequest.leave_type_id lr) (LeaveRequest.start_date lr)
          (LeaveRequest.end_date lr) (LeaveRequest.reason lr)
          LeaveStatus.approved (LeaveRequest.applied_at lr)
          (Some (Employee.id user)) (Some utcnow))
       (leave_requests db))
    (with_leave_balances balances db).

(** * Properties *)

Unset Implicit Arguments.

(** ** The Python helpers on concrete values *)

Example str_int_ex : (str_int 0, str_int 42, str_int (-7)) = ("0", "42", "-7").
Proof. reflexivity. Qed.

Example toordinal_ex : date.toordinal (date.mk 2026 1 5) = 739621.
Proof. reflexivity. Qed.

Example str_date_ex : date.str (date.mk 2026 3 1) = "2026-03-01".
Proof. reflexivity. Qed.

Example strftime_ex :
  datetime.strftime_HM (datetime.mk (date.mk 2026 3 1) 9 5 0) = "09:05".
Proof. reflexivity. Qed.

Example split_char_ex : split_char ":" "09:05:30" = ["09"; "05"; "30"].
Proof. reflexivity. Qed.

Example replace_char_ex :
  replace_char "Z" "+00:00" "2026-03-01T09:00:00Z" = "2026-03-01T09:00:00+00:00".
Proof. reflexivity. Qed.

(** ** Rows of a table *)

Section TableFacts.
Context {A : Type}.
Implicit Types (p q : A -> bool) (l : list A).

Lemma find_replace_first_same p v l x :
  find p l = Some x -> p v = true -> find p (replace_first p v l) = Some v.
Proof.
  induction l as [|a tl IH]; simpl; [discriminate|].
  destruct (p a) eqn:Ha; intros Hf Hv; simpl.
  - now rewrite Hv.
  - rewrite Ha. now apply IH.
Qed.

Lemma find_snoc p l v :
  find p (l ++ [v])%list =
  match find p l with
  | Some x => Some x
  | None => if p v then Some v else None
  end.
Proof.
  induction l as [|a tl IH]; simpl; [reflexivity|].
  now destruct (p a).
Qed.

Lemma insert_by_perm le a l : Permutation (a :: l) (insert_by le a l).
Proof.
  induction l as [|x tl IH]; simpl; [reflexivity|].
  destruct (le a x); [reflexivity|].
  rewrite perm_swap. now constructor.
Qed.

Lemma order_by_perm le l : Permutation l (order_by le l).
Proof.
  induction l as [|x tl IH]; simpl; [constructor|].
  rewrite <- insert_by_perm. now constructor.
Qed.

Lemma order_by_In le l x : In x (order_by le l) <-> In x l.
Proof.
  split; apply Permutation_in; [symmetry|]; apply order_by_perm.
Qed.

Lemma page_In skip limit l x : In x (page skip limit l) -> In x l.
Proof.
  unfold page. intros H.
  rewrite <- (firstn_skipn skip l). apply in_or_app. right.
  rewrite <- (firstn_skipn limit (skipn skip l)). apply in_or_app. now left.
Qed.

End TableFacts.

(** ** Running a request *)

Ltac run_request :=
  unfold run, bind, ret, raise, query, modify, commit, value_or_raise, lift;
  simpl.

Lemma option_eqb_Z_spec (x y : option Z) : option_eqb Z.eqb x y = true <-> x = y.
Proof.
  destruct x as [a|], y as [b|]; simpl; try (split; congruence).
  rewrite Z.eqb_eq. split; congruence.
Qed.

Lemma option_eqb_string_spec (x y : option string) :
  option_eqb String.eqb x y = true <-> x = y.
Proof.
  destruct x as [a|], y as [b|]; simpl; try (split; congruence).
  rewrite String.eqb_eq. split; congruence.
Qed.

(** ** Reading one attendance record *)

(** C9. [get_attendance_by_id] makes no role or ownership check: whoever
    the authenticated caller is, the request never fails with status 403,
    and for the id of a stored record it returns that record's view (the
    same for every caller) and leaves the database as it was. *)
Theorem get_attendance_by_id_any_caller
    (int : string -> option Z) (db : DB) (record_id : string) (user : Employee.t) :
  (forall detail,
      fst (run (get_attendance_by_id int record_id user) db)
      <> Raised (HTTPException 403 detail))
  /\ (forall rid rec,
        int record_id = Some rid ->
        find (fun r => AttendanceRecord.id r =? rid) (attendance_records db) = Some rec ->
        run (get_attendance_by_id int record_id user) db
        = (Ok (attendance_view db rec (approval_or_default rec)), db)).
Proof.
  split.
  - intros detail. unfold get_attendance_by_id. run_request.
    destruct (int record_id) as [rid|]; simpl; [|discriminate].
    destruct (find _ (attendance_records db)); simpl; discriminate.
  - intros rid rec Hint Hfind. unfold get_attendance_by_id. run_request.
    rewrite Hint. simpl. now rewrite Hfind.
Qed.

(** An employee who neither owns the record nor manages its owner reads
    it: Bob reads Eve's record. *)
Lemma get_attendance_by_id_any_caller_witness :
  run (get_attendance_by_id Sample.int_decimal "1" Sample.bob) Sample.db
  = (Ok (attendance_view Sample.db Sample.eve_rec
           (approval_or_default Sample.eve_rec)), Sample.db).
Proof.
  apply (proj2 (get_attendance_by_id_any_caller
                  Sample.int_decimal Sample.db "1" Sample.bob) 1 Sample.eve_rec);
    reflexivity.
Defined.

(** ** Clocking in *)

(** C8. When no record exists for the employee and the day, [mark_attendance]
    (with clock strings that parse) creates one, and its initial
    approval status is Pending_Admin if the owner's role is manager and
    Pending_Manager for every other role; the response shows the same
    status. *)
Theorem mark_attendance_initial_status
    (int : string -> option Z) (fromisoformat : string -> option datetime.t)
    (today : date.t) (db : DB) (payload : MarkAttendanceRequest.t)
    (user : Employee.t) (eid : Z) (cin cout : option datetime.t) :
  let todays := fun r => (AttendanceRecord.employee_id r =? eid)
                         && date.eqb (AttendanceRecord.date r) today in
  int (MarkAttendanceRequest.employeeId payload) = Some eid ->
  find todays (attendance_records db) = None ->
  parse_clock_time int fromisoformat (MarkAttendanceRequest.clockIn payload) today = Ok cin ->
  parse_optional_clock int fromisoformat (MarkAttendanceRequest.clockOut payload) today
    = Ok cout ->
  exists view db' rec,
    run (mark_attendance int fromisoformat today payload user) db = (Ok view, db')
    /\ attendance_records db' = (attendance_records db ++ [rec])%list
    /\ find todays (attendance_records db') = Some rec
    /\ AttendanceRecord.employee_id rec = eid
    /\ AttendanceRecord.date rec = today
    /\ AttendanceRecord.check_in_time rec = cin
    /\ AttendanceRecord.approval_status rec
       = Some (initial_status_for (employee_by_id db eid))
    /\ AttendanceView.approvalStatus view
       = Some (initial_status_for (employee_by_id db eid)).
Proof.
  intros todays Hint Hnone Hin Hout.
  assert (Hd : date.eqb today today = true).
  { unfold date.eqb. now rewrite !Z.eqb_refl. }
  assert (Hinit :
    match employee_by_id db eid with
    | Some e => if RoleEnum.eqb (Employee.role e) RoleEnum.manager
                then "Pending_Admin" else "Pending_Manager"
    | None => "Pending_Manager"
    end = initial_status_for (employee_by_id db eid)).
  { unfold initial_status_for. destruct (employee_by_id db eid) as [e|]; [|reflexivity].
    now destruct (Employee.role e). }
  unfold mark_attendance. run_request.
  rewrite Hint. simpl. rewrite Hin. fold todays. rewrite Hnone. simpl.
  rewrite Hout. simpl. rewrite Hinit.
  eexists _, _, _. split; [reflexivity|]. simpl.
  repeat split.
  - rewrite find_snoc. fold todays. rewrite Hnone. unfold todays at 1. simpl.
    now rewrite Z.eqb_refl, Hd.
  - unfold approval_or_default, str_or.
    unfold initial_status_for. destruct (employee_by_id db eid) as [e|]; [|reflexivity].
    now destruct (Employee.role e).
Qed.

(** Ned, a manager, clocks in for the first time on the second day: the
    record starts at Pending_Admin. *)
Lemma mark_attendance_initial_status_witness :
  exists view db' rec,
    run (mark_attendance Sample.int_decimal Sample.no_iso (date.mk 2026 3 3)
           (MarkAttendanceRequest.mk "5" "09:00" None "Present") Sample.ned) Sample.db
    = (Ok view, db')
    /\ attendance_records db' = (attendance_records Sample.db ++ [rec])%list
    /\ AttendanceRecord.approval_status rec = Some "Pending_Admin".
Proof.
  destruct (mark_attendance_initial_status Sample.int_decimal Sample.no_iso
              (date.mk 2026 3 3) Sample.db
              (MarkAttendanceRequest.mk "5" "09:00" None "Present") Sample.ned
              5 (Some (datetime.mk (date.mk 2026 3 3) 9 0 0)) None
              eq_refl eq_refl eq_refl eq_refl)
    as (view & db' & rec & Hrun & Hrecs & _ & _ & _ & _ & Hst & _).
  exists view, db', rec. repeat split; assumption.
Defined.

(** ** Updating an attendance record *)

Lemma find_by_id_attendance (rid : Z) (l : list AttendanceRecord.t) rec :
  find (fun r => AttendanceRecord.id r =? rid) l = Some rec ->
  AttendanceRecord.id rec = rid.
Proof. intros H. apply find_some in H. now apply Z.eqb_eq. Qed.





(** ** Confirming an attendance record *)

Lemma entries_count_nonneg db rid : 0 <= entries_count db rid.
Proof. unfold entries_count. lia. Qed.

(** The record that a successful confirmation stores. *)
Lemma confirmed_shape (rec : AttendanceRecord.t) (t : datetime.t) :
  AttendanceRecord.set_approval_status (Some "Pending_Manager")
    (AttendanceRecord.set_confirmed_at (Some t)
       (AttendanceRecord.set_is_confirmed (Some true) rec))
  = AttendanceRecord.mk (AttendanceRecord.id rec) (AttendanceRecord.employee_id rec)
      (AttendanceRecord.date rec) (AttendanceRecord.check_in_time rec)
      (AttendanceRecord.check_out_time rec) (AttendanceRecord.status rec)
      (Some "Pending_Manager") (Some true) (Some t).
Proof. reflexivity. Qed.

(** The guards of [confirm_attendance] on a stored record, in order. *)
Lemma confirm_attendance_run
    (int : string -> option Z) (utcnow : datetime.t)
    (db : DB) (record_id : string) (rid : Z) (rec : AttendanceRecord.t)
    (user : Employee.t) :
  let by_id := fun r => AttendanceRecord.id r =? rid in
  int record_id = Some rid ->
  find by_id (attendance_records db) = Some rec ->
  run (confirm_attendance int utcnow record_id user) db
  = if negb (AttendanceRecord.employee_id rec =? Employee.id user)
       && negb (RoleEnum.eqb (Employee.role user) RoleEnum.admin)
    then (Raised (HTTPException 403 "You can only confirm your own attendance"), db)
    else if match AttendanceRecord.is_confirmed rec with Some b => b | None => false end
    then (Raised (HTTPException 400 "Attendance already confirmed"), db)
    else if (entries_count db (AttendanceRecord.id rec) =? 0)
            && negb (is_some (AttendanceRecord.check_in_time rec))
    then (Raised (HTTPException 400 "No attendance entries to confirm"), db)
    else (Ok (ConfirmResponse.mk (str_int (AttendanceRecord.id rec)) true
                (Some (datetime.strftime_HM utcnow))
                "Attendance confirmed and submitted for verification"),
          with_attendance_records
            (replace_first by_id
               (AttendanceRecord.set_approval_status (Some "Pending_Manager")
                  (AttendanceRecord.set_confirmed_at (Some utcnow)
                     (AttendanceRecord.set_is_confirmed (Some true) rec)))
               (attendance_records db)) db).
Proof.
  intros by_id Hint Hfind.
  unfold confirm_attendance. run_request. rewrite Hint. simpl.
  fold by_id. rewrite Hfind.
  repeat match goal with |- context [if ?c then _ else _] => destruct c end;
    reflexivity.
Qed.

(** C4. For a stored record, [confirm_attendance] succeeds exactly when
    the caller is the owner or an admin, the record is not yet confirmed,
    and it has at least one entry or a check-in time.  On success the
    stored record has [is_confirmed = true], [confirmed_at = utcnow] and
    [approval_status = Pending_Manager], nothing else changes; a second
    confirmation by the same caller then fails with the conflict
    "Attendance already confirmed" (status 400) and stores nothing. *)
Theorem confirm_attendance_guarded
    (int : string -> option Z) (utcnow : datetime.t)
    (db : DB) (record_id : string) (rid : Z) (rec : AttendanceRecord.t)
    (user : Employee.t) :
  let by_id := fun r => AttendanceRecord.id r =? rid in
  let rec' :=
    AttendanceRecord.mk (AttendanceRecord.id rec) (AttendanceRecord.employee_id rec)
      (AttendanceRecord.date rec) (AttendanceRecord.check_in_time rec)
      (AttendanceRecord.check_out_time rec) (AttendanceRecord.status rec)
      (Some "Pending_Manager") (Some true) (Some utcnow) in
  let db' := with_attendance_records (replace_first by_id rec' (attendance_records db)) db in
  int record_id = Some rid ->
  find by_id (attendance_records db) = Some rec ->
  (succeeds (run (confirm_attendance int utcnow record_id user) db) = true
   <-> (AttendanceRecord.employee_id rec = Employee.id user
        \/ Employee.role user = RoleEnum.admin)
       /\ AttendanceRecord.is_confirmed rec <> Some true
       /\ (1 <= entries_count db (AttendanceRecord.id rec)
           \/ AttendanceRecord.check_in_time rec <> None))
  /\ (succeeds (run (confirm_attendance int utcnow record_id user) db) = true ->
      run (confirm_attendance int utcnow record_id user) db
      = (Ok (ConfirmResponse.mk (str_int (AttendanceRecord.id rec)) true
               (Some (datetime.strftime_HM utcnow))
               "Attendance confirmed and submitted for verification"), db')
      /\ find by_id (attendance_records db') = Some rec'
      /\ forall later,
           run (confirm_attendance int later record_id user) db'
           = (Raised (HTTPException 400 "Attendance already confirmed"), db'))
  /\ (succeeds (run (confirm_attendance int utcnow record_id user) db) = false ->
      snd (run (confirm_attendance int utcnow record_id user) db) = db).
Proof.
  intros by_id rec' db' Hint Hfind.
  assert (Hid : by_id rec' = true).
  { subst by_id rec'. simpl. apply Z.eqb_eq.
    now apply find_by_id_attendance with (l := attendance_records db). }
  assert (Hfind' : find by_id (attendance_records db') = Some rec').
  { subst db'. simpl. now apply find_replace_first_same with (x := rec). }
  pose proof (confirm_attendance_run int utcnow db record_id rid rec user Hint Hfind) as Hrun.
  rewrite confirmed_shape in Hrun. fold by_id rec' db' in Hrun.
  assert (Hlater : forall later,
    negb (AttendanceRecord.employee_id rec =? Employee.id user)
      && negb (RoleEnum.eqb (Employee.role user) RoleEnum.admin) = false ->
    run (confirm_attendance int later record_id user) db'
    = (Raised (HTTPException 400 "Attendance already confirmed"), db')).
  { intros later Hauth.
    rewrite (confirm_attendance_run int later db' record_id rid rec' user Hint Hfind').
    subst rec'. simpl. now rewrite Hauth. }
  rewrite Hrun. clear Hrun.
  pose proof (entries_count_nonneg db (AttendanceRecord.id rec)) as Hnn.
  destruct (Z.eqb_spec (AttendanceRecord.employee_id rec) (Employee.id user)) as [Ho|Ho];
    destruct (Employee.role user) eqn:Hrole;
    destruct (AttendanceRecord.is_confirmed rec) as [[|]|] eqn:Hc;
    destruct (Z.eqb_spec (entries_count db (AttendanceRecord.id rec)) 0) as [He|He];
    destruct (AttendanceRecord.check_in_time rec) as [cin|] eqn:Hin;
    simpl; unfold succeeds; simpl;
    (split; [split; [intros H; try discriminate H;
                     repeat split; try congruence; auto; try (left; lia); try (right; congruence)
                    | intros (H1 & H2 & H3);
                      try reflexivity; exfalso;
                      try (destruct H1; congruence);
                      try congruence;
                      try (destruct H3; [lia | congruence]) ]
            | split; [intros H; try discriminate H | intros H; try discriminate H; reflexivity]]).
  all: split; [reflexivity | split; [assumption|]].
  all: intros later; apply Hlater; try rewrite Ho; try rewrite Z.eqb_refl; reflexivity.
Qed.

(** Eve confirms her record at noon; her second confirmation is refused. *)
Lemma confirm_attendance_guarded_witness :
  exists db',
    snd (run (confirm_attendance Sample.int_decimal Sample.noon "1" Sample.eve) Sample.db)
    = db'
    /\ find (fun r => AttendanceRecord.id r =? 1) (attendance_records db')
       = Some (AttendanceRecord.mk 1 3 Sample.day1 (Some Sample.nine) None (Some "Present")
                 (Some "Pending_Manager") (Some true) (Some Sample.noon))
    /\ run (confirm_attendance Sample.int_decimal Sample.noon "1" Sample.eve) db'
       = (Raised (HTTPException 400 "Attendance already confirmed"), db').
Proof.
  destruct (confirm_attendance_guarded Sample.int_decimal Sample.noon Sample.db "1" 1
              Sample.eve_rec Sample.eve eq_refl eq_refl) as (Hiff & Hok & _).
  destruct (Hok eq_refl) as (Hrun & Hfind & Hsecond).
  eexists. split; [rewrite Hrun; reflexivity|].
  split; [exact Hfind | exact (Hsecond Sample.noon)].
Defined.

(** ** Manager verification *)





(** ** Clocking in and out: ownership and the approval status *)


Lemma replace_first_pointwise {A} (R : A -> A -> Prop) (p : A -> bool) v l x :
  (forall a, R a a) ->
  find p l = Some x -> R x v ->
  forall i y, nth_error l i = Some y ->
    exists y', nth_error (replace_first p v l) i = Some y' /\ R y y'.
Proof.
  intros Hrefl. induction l as [|a tl IH]; simpl; [discriminate|].
  destruct (p a) eqn:Ha; intros Hf Hr i y Hi.
  - injection Hf as ->. destruct i as [|i]; simpl in *.
    + injection Hi as <-. now exists v.
    + exists y. auto.
  - destruct i as [|i]; simpl in *.
    + exists y. auto.
    + now apply IH.
Qed.





(** ** Approving a leave request *)

(** C3. An authorised approval (an admin, or the direct manager of the
    owner) of a stored pending request succeeds; with
    [days = (end_date - start_date) + 1] the owner's balance for the
    current year is upserted: an existing row has [used] increased by
    [days], its [total] kept and [remaining = total - used] afterwards; if
    there was no row, one is created with total 17, used [days] and
    remaining [17 - days].  The request is stored as approved, reviewed by
    the caller at [utcnow]. *)
Theorem approve_leave_post_balance
    (int : string -> option Z) (today : date.t) (utcnow : datetime.t)
    (db : DB) (leave_id : string) (lid : Z) (lr : LeaveRequest.t) (user : Employee.t) :
  let by_id := fun r => LeaveRequest.id r =? lid in
  let days := date.toordinal (LeaveRequest.end_date lr)
              - date.toordinal (LeaveRequest.start_date lr) + 1 in
  let mine := fun b => (LeaveBalance.employee_id b =? LeaveRequest.employee_id lr)
                       && (LeaveBalance.year b =? date.year today) in
  int leave_id = Some lid ->
  find by_id (leave_requests db) = Some lr ->
  LeaveRequest.status lr = LeaveStatus.pending ->
  (Employee.role user = RoleEnum.admin
   \/ (Employee.role user = RoleEnum.manager
       /\ exists owner,
            employee_by_id db (LeaveRequest.employee_id lr) = Some owner
            /\ Employee.manager_id owner = Some (Employee.id user))) ->
  exists db',
    run (approve_leave_post int today utcnow leave_id user) db
    = (Ok (StatusResponse.mk (str_int (LeaveRequest.id lr)) "Approved"
             "Leave approved successfully"), db')
    /\ match find mine (leave_balances db) with
       | Some b =>
           exists b',
             find mine (leave_balances db') = Some b'
             /\ LeaveBalance.used_leaves b' = LeaveBalance.used_leaves b + days
             /\ LeaveBalance.total_leaves b' = LeaveBalance.total_leaves b
             /\ LeaveBalance.remaining_leaves b'
                = LeaveBalance.total_leaves b' - LeaveBalance.used_leaves b'
             /\ leave_balances db' = replace_first mine b' (leave_balances db)
       | None =>
           find mine (leave_balances db')
           = Some (LeaveBalance.mk (LeaveRequest.employee_id lr) (date.year today)
                     17 days (17 - days))
           /\ leave_balances db'
              = (leave_balances db
                 ++ [LeaveBalance.mk (LeaveRequest.employee_id lr) (date.year today)
                       17 days (17 - days)])%list
       end
    /\ find by_id (leave_requests db')
       = Some (LeaveRequest.mk (LeaveRequest.id lr) (LeaveRequest.employee_id lr)
                 (LeaveRequest.leave_type_id lr) (LeaveRequest.start_date lr)
                 (LeaveRequest.end_date lr) (LeaveRequest.reason lr)
                 LeaveStatus.approved (LeaveRequest.applied_at lr)
                 (Some (Employee.id user)) (Some utcnow)).
Proof.
  intros by_id days mine Hint Hfind Hpending Hauth.
  assert (Hid : LeaveRequest.id lr = lid).
  { apply find_some in Hfind. now apply Z.eqb_eq. }
  assert (Hmgr : forall owner,
    Employee.manager_id owner = Some (Employee.id user) ->
    option_eqb Z.eqb (Employee.manager_id owner) (Some (Employee.id user)) = true).
  { intros owner H. now apply option_eqb_Z_spec. }
  assert (Hrun : run (approve_leave_post int today utcnow leave_id user) db
    = run (match find mine (leave_balances db) with
           | Some b =>
               modify (fun d => with_leave_balances
                 (replace_first mine
                    (LeaveBalance.mk (LeaveBalance.employee_id b) (LeaveBalance.year b)
                       (LeaveBalance.total_leaves b) (LeaveBalance.used_leaves b + days)
                       (LeaveBalance.total_leaves b - (LeaveBalance.used_leaves b + days)))
                    (leave_balances d)) d)
           | None =>
               modify (fun d => with_leave_balances
                 (leave_balances d
                  ++ [LeaveBalance.mk (LeaveRequest.employee_id lr) (date.year today)
                        17 days (17 - days)])%list d)
           end ;;;
           modify (fun d => with_leave_requests
             (replace_first by_id
                (LeaveRequest.mk (LeaveRequest.id lr) (LeaveRequest.employee_id lr)
                   (LeaveRequest.leave_type_id lr) (LeaveRequest.start_date lr)
                   (LeaveRequest.end_date lr) (LeaveRequest.reason lr)
                   LeaveStatus.approved (LeaveRequest.applied_at lr)
                   (Some (Employee.id user)) (Some utcnow))
                (leave_requests d)) d) ;;;
           commit ;;;
           ret (StatusResponse.mk (str_int (LeaveRequest.id lr)) "Approved"
                  "Leave approved successfully")) db).
  { unfold approve_leave_post, is_admin_or_manager.
    destruct Hauth as [Ha | (Hm & owner & Ho & Hd)].
    - rewrite Ha, Hint. run_request. fold by_id. rewrite Hfind, Hpending. simpl.
      destruct (find _ (leave_balances db)); reflexivity.
    - rewrite Hm, Hint. run_request. fold by_id. rewrite Hfind, Hpending. simpl.
      rewrite Ho, (Hmgr owner Hd). simpl.
      destruct (find _ (leave_balances db)); reflexivity. }
  rewrite Hrun. clear Hrun.
  destruct (find mine (leave_balances db)) as [b|] eqn:Hb.
  - run_request. eexists. split; [reflexivity|]. simpl.
    assert (Hmine : mine b = true) by (now apply find_some in Hb).
    split.
    + eexists. split.
      * eapply find_replace_first_same; [exact Hb|]. exact Hmine.
      * repeat split.
    + eapply find_replace_first_same; [exact Hfind|].
      subst by_id. simpl. now apply Z.eqb_eq.
  - run_request. eexists. split; [reflexivity|]. simpl.
    split.
    + split; [|reflexivity].
      rewrite find_snoc, Hb. subst mine. simpl. now rewrite !Z.eqb_refl.
    + eapply find_replace_first_same; [exact Hfind|].
      subst by_id. simpl. now apply Z.eqb_eq.
Qed.

(** Max approves Eve's request for 2026-03-01 to 2026-03-03, three days,
    on a balance of total 17 and used 0: used becomes 3, remaining 14. *)
Lemma approve_leave_post_balance_witness :
  exists db' b',
    run (approve_leave_post Sample.int_decimal Sample.day1 Sample.noon "1" Sample.max)
        Sample.db
    = (Ok (StatusResponse.mk "1" "Approved" "Leave approved successfully"), db')
    /\ find (balance_of 3 2026) (leave_balances db') = Some b'
    /\ LeaveBalance.total_leaves b' = 17
    /\ LeaveBalance.used_leaves b' = 3
    /\ LeaveBalance.remaining_leaves b' = 14.
Proof.
  destruct (approve_leave_post_balance Sample.int_decimal Sample.day1 Sample.noon
              Sample.db "1" 1 Sample.eve_leave Sample.max eq_refl eq_refl eq_refl
              (or_intror (conj eq_refl
                 (ex_intro _ Sample.eve (conj eq_refl eq_refl)))))
    as (db' & Hrun & Hbal & _).
  simpl in Hbal. destruct Hbal as (b' & Hb & Hused & Htotal & Hrem & _).
  exists db', b'. repeat split; try assumption.
  rewrite Hrem, Htotal, Hused. reflexivity.
Defined.

(** ** Deleting a leave request *)

(** The guards of [delete_leave] on a stored request, in order. *)
Lemma delete_leave_run
    (int : string -> option Z) (db : DB) (leave_id : string) (lid : Z)
    (lr : LeaveRequest.t) (user : Employee.t) :
  let by_id := fun r => LeaveRequest.id r =? lid in
  int leave_id = Some lid ->
  find by_id (leave_requests db) = Some lr ->
  run (delete_leave int leave_id user) db
  = if negb (LeaveRequest.employee_id lr =? Employee.id user)
       && RoleEnum.eqb (Employee.role user) RoleEnum.employee
    then (Raised (HTTPException 403 "Cannot delete others' leave requests"), db)
    else if negb (LeaveStatus.eqb (LeaveRequest.status lr) LeaveStatus.pending)
    then (Raised (HTTPException 400 "Can only delete pending leave requests"), db)
    else (Ok "Leave request deleted",
          with_leave_requests (delete_first by_id (leave_requests db)) db).
Proof.
  intros by_id Hint Hfind.
  unfold delete_leave. run_request. rewrite Hint. simpl.
  fold by_id. rewrite Hfind.
  repeat match goal with |- context [if ?c then _ else _] => destruct c end;
    reflexivity.
Qed.

(** The claim that every caller other than the owner or an admin is
    refused fails for managers: Ned, a manager who neither owns Eve's
    pending request nor manages Eve, deletes it. *)
Lemma delete_leave_by_manager_counterexample :
  Employee.role Sample.ned = RoleEnum.manager
  /\ LeaveRequest.employee_id Sample.eve_leave <> Employee.id Sample.ned
  /\ Employee.manager_id Sample.eve <> Some (Employee.id Sample.ned)
  /\ run (delete_leave Sample.int_decimal "1" Sample.ned) Sample.db
     = (Ok "Leave request deleted",
        with_leave_requests [Sample.bob_leave] Sample.db).
Proof. repeat split; discriminate. Qed.

(** C6, amended. Deleting a stored leave request succeeds exactly when the
    request is pending and the caller is its owner or has a role other
    than employee (a manager or an admin), and then the request is
    removed.  A caller of role employee who is not the owner is refused
    with status 403; a caller who passes that check is refused with the
    conflict "Can only delete pending leave requests" (status 400) when
    the request is not pending.  After a refusal the database, and the
    request in it, is as before. *)
Theorem delete_leave_guarded
    (int : string -> option Z) (db : DB) (leave_id : string) (lid : Z)
    (lr : LeaveRequest.t) (user : Employee.t) :
  let by_id := fun r => LeaveRequest.id r =? lid in
  let out := run (delete_leave int leave_id user) db in
  int leave_id = Some lid ->
  find by_id (leave_requests db) = Some lr ->
  (succeeds out = true
   <-> (LeaveRequest.employee_id lr = Employee.id user
        \/ Employee.role user <> RoleEnum.employee)
       /\ LeaveRequest.status lr = LeaveStatus.pending)
  /\ (LeaveRequest.employee_id lr <> Employee.id user ->
      Employee.role user = RoleEnum.employee ->
      out = (Raised (HTTPException 403 "Cannot delete others' leave requests"), db))
  /\ (LeaveRequest.employee_id lr = Employee.id user
      \/ Employee.role user <> RoleEnum.employee ->
      LeaveRequest.status lr <> LeaveStatus.pending ->
      out = (Raised (HTTPException 400 "Can only delete pending leave requests"), db))
  /\ (succeeds out = true ->
      out = (Ok "Leave request deleted",
             with_leave_requests (delete_first by_id (leave_requests db)) db))
  /\ (succeeds out = false ->
      snd out = db /\ find by_id (leave_requests (snd out)) = Some lr).
Proof.
  intros by_id out Hint Hfind. subst out.
  rewrite (delete_leave_run int db leave_id lid lr user Hint Hfind). fold by_id.
  destruct (Z.eqb_spec (LeaveRequest.employee_id lr) (Employee.id user)) as [Ho|Ho];
    destruct (Employee.role user) eqn:Hrole;
    destruct (LeaveRequest.status lr) eqn:Hst;
    unfold succeeds; simpl;
    repeat split; intros; try reflexivity; try assumption; try discriminate;
    try congruence;
    try (left; assumption); try (right; discriminate);
    repeat match goal with
           | H : _ /\ _ |- _ => destruct H
           | H : _ \/ _ |- _ => destruct H
           end;
    congruence.
Qed.

(** Eve deletes her own pending request. *)
Lemma delete_leave_guarded_witness :
  run (delete_leave Sample.int_decimal "1" Sample.eve) Sample.db
  = (Ok "Leave request deleted", with_leave_requests [Sample.bob_leave] Sample.db).
Proof.
  destruct (delete_leave_guarded Sample.int_decimal Sample.db "1" 1 Sample.eve_leave
              Sample.eve eq_refl eq_refl) as (_ & _ & _ & Hok & _).
  exact (Hok eq_refl).
Defined.

(** ** Rejecting a leave request *)






(** ** Role-scoped listings *)

Lemma in_subordinate_ids db uid x :
  in_ (subordinate_ids db uid) x = true <-> x = uid \/ direct_report db uid x.
Proof.
  unfold in_, subordinate_ids, direct_report.
  rewrite existsb_exists. split.
  - intros (y & Hy & Hxy). apply Z.eqb_eq in Hxy. subst y.
    apply in_app_or in Hy. destruct Hy as [Hy | [Hy | []]]; [right | now left].
    apply in_map_iff in Hy. destruct Hy as (e & He & Hin).
    apply filter_In in Hin. destruct Hin as (Hin & Hm).
    apply option_eqb_Z_spec in Hm. now exists e.
  - intros [-> | (e & Hin & He & Hm)].
    + exists uid. split; [|apply Z.eqb_refl].
      apply in_or_app. right. now left.
    + exists x. split; [|apply Z.eqb_refl].
      apply in_or_app. left. apply in_map_iff. exists e. split; [assumption|].
      apply filter_In. split; [assumption|]. now apply option_eqb_Z_spec.
Qed.

(** The rows of the attendance table that [get_all_attendance] pages. *)
Lemma attendance_scope_visible db user r :
  In r (match Employee.role user with
        | RoleEnum.employee =>
            filter (fun r => AttendanceRecord.employee_id r =? Employee.id user)
                   (attendance_records db)
        | RoleEnum.manager =>
            filter (fun r => in_ (subordinate_ids db (Employee.id user))
                                 (AttendanceRecord.employee_id r))
                   (attendance_records db)
        | RoleEnum.admin => attendance_records db
        end)
  <-> In r (attendance_records db) /\ visible db user (AttendanceRecord.employee_id r).
Proof.
  unfold visible. destruct (Employee.role user).
  - rewrite filter_In, Z.eqb_eq. tauto.
  - rewrite filter_In, in_subordinate_ids. tauto.
  - tauto.
Qed.

Lemma leave_scope_visible db user r :
  In r (leave_scope db user)
  <-> In r (leave_requests db) /\ visible db user (LeaveRequest.employee_id r).
Proof.
  unfold leave_scope, visible. destruct (Employee.role user).
  - rewrite filter_In, Z.eqb_eq. tauto.
  - rewrite filter_In, in_subordinate_ids. tauto.
  - tauto.
Qed.

(** The claim that every listing gives a manager exactly the rows of the
    manager and the direct reports, and an admin all rows, fails in two
    ways.  [list_attendance] gives Max, a manager, the record of Bob, who
    is not his report.  [get_all_attendance] returns a page: with
    [limit = 1] Ada, an admin, receives one of the three records. *)
Lemma listing_counterexample :
  (Employee.role Sample.max = RoleEnum.manager
   /\ ~ visible Sample.db Sample.max (AttendanceRecord.employee_id Sample.bob_rec)
   /\ exists total items,
        run (list_attendance 0 100 None None None None "desc" Sample.max) Sample.db
        = (Ok (total, items), Sample.db)
        /\ In Sample.bob_rec items)
  /\ (Employee.role Sample.ada = RoleEnum.admin
      /\ List.length (attendance_records Sample.db) = 3%nat
      /\ List.length (get_all_attendance_rows Sample.db 0 1 Sample.ada) = 1%nat).
Proof.
  split.
  - split; [reflexivity|]. split.
    + unfold visible, direct_report. simpl.
      intros [H | (e & Hin & Hid & Hm)]; [discriminate|].
      repeat (destruct Hin as [<- | Hin]; try discriminate). exact Hin.
    + eexists _, _. split; [reflexivity|]. simpl. tauto.
  - repeat split.
Qed.

(** C2, amended. [get_all_attendance] returns the page (offset [skip], at
    most [limit] rows) of a listing that holds exactly the caller's own
    rows for role employee, exactly the rows of the caller and of the
    caller's direct reports (one level) for role manager, and all rows for
    role admin.  [get_all_leaves] and [get_leave_list] are not paged and
    return exactly those rows of the leave requests.  In
    [list_attendance] a caller of role employee receives only own rows. *)
Theorem listings_scoped_by_role (today : date.t) (db : DB) (user : Employee.t) :
  (forall skip limit,
      run (get_all_attendance skip limit user) db
      = (Ok (map (attendance_item db) (get_all_attendance_rows db skip limit user)), db)
      /\ exists listing,
           get_all_attendance_rows db skip limit user = page skip limit listing
           /\ forall r, In r listing
                        <-> In r (attendance_records db)
                            /\ visible db user (AttendanceRecord.employee_id r))
  /\ (run (get_all_leaves today user) db
      = (Ok (map (leave_view today db) (get_all_leaves_rows db user)), db)
      /\ forall r, In r (get_all_leaves_rows db user)
                   <-> In r (leave_requests db)
                       /\ visible db user (LeaveRequest.employee_id r))
  /\ (run (get_leave_list today user) db
      = (Ok (map (leave_view today db) (get_leave_list_rows db user)), db)
      /\ forall r, In r (get_leave_list_rows db user)
                   <-> In r (leave_requests db)
                       /\ visible db user (LeaveRequest.employee_id r))
  /\ (forall skip limit employee_id start_date end_date sort_by order total items db',
        Employee.role user = RoleEnum.employee ->
        run (list_attendance skip limit employee_id start_date end_date sort_by order user) db
        = (Ok (total, items), db') ->
        db' = db
        /\ forall r, In r items ->
                     In r (attendance_records db)
                     /\ AttendanceRecord.employee_id r = Employee.id user).
Proof.
  split; [|split; [|split]].
  - intros skip limit. split; [reflexivity|].
    eexists. split; [reflexivity|].
    intros r. rewrite order_by_In. apply attendance_scope_visible.
  - split; [reflexivity|].
    intros r. unfold get_all_leaves_rows. rewrite order_by_In.
    apply leave_scope_visible.
  - split; [reflexivity|].
    intros r. unfold get_leave_list_rows. rewrite order_by_In.
    apply leave_scope_visible.
  - intros skip limit employee_id start_date end_date sort_by order total items db'
           Hrole Hrun.
    unfold list_attendance in Hrun. rewrite Hrole in Hrun.
    set (own := filter (fun r => AttendanceRecord.employee_id r =? Employee.id user)
                       (attendance_records db)) in Hrun.
    set (q1 := match start_date with
               | Some d => filter (fun r => date.leb d (AttendanceRecord.date r)) own
               | None => own
               end) in Hrun.
    set (q2 := match end_date with
               | Some d => filter (fun r => date.leb (AttendanceRecord.date r) d) q1
               | None => q1
               end) in Hrun.
    assert (Hq2 : forall r, In r q2 ->
              In r (attendance_records db)
              /\ AttendanceRecord.employee_id r = Employee.id user).
    { intros r Hr.
      assert (H1 : In r q1).
      { subst q2. destruct end_date; [apply filter_In in Hr; tauto | assumption]. }
      assert (H0 : In r own).
      { subst q1. destruct start_date; [apply filter_In in H1; tauto | assumption]. }
      subst own. apply filter_In in H0. rewrite Z.eqb_eq in H0. exact H0. }
    assert (Hsorted : forall le total' items',
              (Ok (Z.of_nat (List.length (order_by le q2)),
                   page skip limit (order_by le q2)), db)
              = (Ok (total', items'), db') ->
              db' = db /\ forall r, In r items' ->
                In r (attendance_records db)
                /\ AttendanceRecord.employee_id r = Employee.id user).
    { intros le total' items' H. injection H as _ <- <-.
      split; [reflexivity|]. intros r Hr.
      apply page_In in Hr. apply order_by_In in Hr. now apply Hq2. }
    destruct (negb (String.eqb order "asc" || String.eqb order "desc"));
      [discriminate|].
    revert Hrun. run_request.
    destruct (truthy sort_by); simpl.
    + destruct (sort_column (str_or sort_by "")) as [le|]; simpl; [|discriminate].
      destruct (String.eqb order "asc"); simpl; apply Hsorted.
    + apply Hsorted.
Qed.

(** Eve, an employee, lists attendance and asks for Bob's rows: she
    receives her own record only. *)
Lemma listings_scoped_by_role_witness :
  run (list_attendance 0 100 (Some 4) None None None "desc" Sample.eve) Sample.db
  = (Ok (1, [Sample.eve_rec]), Sample.db)
  /\ forall r, In r [Sample.eve_rec] ->
       In r (attendance_records Sample.db)
       /\ AttendanceRecord.employee_id r = Employee.id Sample.eve.
Proof.
  split; [reflexivity|].
  exact (proj2 (proj2 (proj2 (proj2 (listings_scoped_by_role Sample.day1 Sample.db
                                       Sample.eve)))
                 0%nat 100%nat (Some 4) None None None "desc" 1 [Sample.eve_rec]
                 Sample.db eq_refl eq_refl)).
Defined.

(** One level only: Zoe reports to Ned and Ned to Max; Max's listing
    holds his own record and those of Eve and Ned, not Zoe's. *)
Example manager_listing_one_level :
  get_all_attendance_rows Sample.chain_db 0 100 Sample.max
  = [Sample.eve_rec; Sample.max_rec; Sample.ned_rec]
  /\ In Sample.zoe_rec (attendance_records Sample.chain_db)
  /\ direct_report Sample.chain_db (Employee.id Sample.ned2) (Employee.id Sample.zoe)
  /\ direct_report Sample.chain_db (Employee.id Sample.max) (Employee.id Sample.ned2).
Proof.
  split; [reflexivity|]. split; [simpl; tauto|].
  split; [exists Sample.zoe | exists Sample.ned2]; simpl; tauto.
Qed.

(** ** The scenarios of the specification *)

(** Inclusive day counts: one day for a request that starts and ends on
    2026-01-05, three days up to 2026-01-07. *)
Example days_requested_ex :
  days_requested (LeaveRequest.mk 1 3 1 (date.mk 2026 1 5) (date.mk 2026 1 5) None
                    LeaveStatus.pending None None None) = 1
  /\ days_requested (LeaveRequest.mk 1 3 1 (date.mk 2026 1 5) (date.mk 2026 1 7) None
                       LeaveStatus.pending None None None) = 3.
Proof. split; reflexivity. Qed.

(** Eve clocks in at 09:00 and confirms; Max, her manager, verifies; Ada,
    an admin, approves: the record ends approved and confirmed. *)
Example attendance_workflow_scenario :
  let db1 := snd (run (mark_attendance Sample.int_decimal Sample.no_iso Sample.day1
                         (MarkAttendanceRequest.mk "3" "09:00" None "Present") Sample.eve)
                      Sample.fresh_db) in
  let db2 := snd (run (confirm_attendance Sample.int_decimal Sample.noon "1" Sample.eve)
                      db1) in
  let db3 := snd (run (update_attendance Sample.int_decimal Sample.no_iso "1"
                         (Some Sample.approval_only) Sample.max) db2) in
  let db4 := snd (run (update_attendance Sample.int_decimal Sample.no_iso "1"
                         (Some Sample.approval_only) Sample.ada) db3) in
  map AttendanceRecord.approval_status (attendance_records db2) = [Some "Pending_Manager"]
  /\ map AttendanceRecord.approval_status (attendance_records db3) = [Some "Pending_Admin"]
  /\ map (fun r => (AttendanceRecord.approval_status r, AttendanceRecord.is_confirmed r))
         (attendance_records db4)
     = [(Some "Approved", Some true)].
Proof. repeat split. Qed.

(** Ned, a manager who is not Eve's manager, can neither verify her
    attendance nor approve her leave. *)
Example unrelated_manager_scenario :
  run (update_attendance Sample.int_decimal Sample.no_iso "1"
         (Some Sample.approval_only) Sample.ned) Sample.db
  = (Raised (HTTPException 403 "You can only verify attendance for your direct reports"),
     Sample.db)
  /\ run (approve_leave_post Sample.int_decimal Sample.day1 Sample.noon "1" Sample.ned)
         Sample.db
     = (Raised (HTTPException 403 "You can only approve leaves for your direct reports"),
        Sample.db).
Proof. split; reflexivity. Qed.

(** * Further properties of the router *)

(** ** Parsing clock strings *)




(** X2. [parse_clock_time] answers [None] for the empty string and for
    no other string: a non-empty string gives a time or raises. *)
Theorem parse_clock_time_none_iff_empty
    (int : string -> option Z) (fromisoformat : string -> option datetime.t)
    (time_str : string) (day : date.t) :
  parse_clock_time int fromisoformat time_str day = Ok None <-> time_str = "".
Proof.
  split.
  - destruct time_str as [|c s]; [reflexivity|]. intros H. exfalso.
    unfold parse_clock_time, bind_result in H.
    change (negb (truthy (Some (String c s)))) with false in H. cbv iota in H.
    repeat match type of H with
           | context [if ?c then _ else _] => destruct c
           | context [match value_of ?o with _ => _ end] => destruct (value_of o)
           end; discriminate.
  - intros ->. reflexivity.
Qed.

(** ** Invariants of the attendance table *)

Lemma NoDup_app_iff_snoc {A} (l : list A) (a : A) :
  NoDup l -> ~ In a l -> NoDup (l ++ [a])%list.
Proof.
  intros Hl Ha. induction Hl as [|x tl Hx Htl IH]; simpl.
  - constructor; [tauto | constructor].
  - constructor.
    + intros Hin. apply in_app_or in Hin. destruct Hin as [Hin | [-> | []]].
      * contradiction.
      * apply Ha. now left.
    + apply IH. intros Hin. apply Ha. now right.
Qed.

Lemma date_eqb_eq (a b : date.t) : date.eqb a b = true <-> a = b.
Proof.
  unfold date.eqb. destruct a as [y m d], b as [y' m' d']. simpl.
  rewrite !andb_true_iff, !Z.eqb_eq. split.
  - intros ((-> & ->) & ->). reflexivity.
  - intros H. injection H as -> -> ->. auto.
Qed.

Lemma map_replace_first {A B} (f : A -> B) (p : A -> bool) (v : A) (l : list A) (x : A) :
  find p l = Some x -> f v = f x -> map f (replace_first p v l) = map f l.
Proof.
  induction l as [|a tl IH]; simpl; [discriminate|].
  destruct (p a); intros Hf Hv; simpl.
  - injection Hf as ->. now rewrite Hv.
  - f_equal. now apply IH.
Qed.

Lemma Forall_replace_first {A} (P : A -> Prop) (p : A -> bool) (v : A) (l : list A) :
  Forall P l -> P v -> Forall P (replace_first p v l).
Proof.
  intros Hl Hv. induction Hl as [|a tl Ha Htl IH]; simpl; [constructor|].
  destruct (p a); constructor; assumption.
Qed.

Lemma delete_first_incl {A} (p : A -> bool) (l : list A) x :
  In x (delete_first p l) -> In x l.
Proof.
  induction l as [|a tl IH]; simpl; [tauto|].
  destruct (p a); simpl; tauto.
Qed.

Lemma NoDup_map_delete_first {A B} (f : A -> B) (p : A -> bool) (l : list A) :
  NoDup (map f l) -> NoDup (map f (delete_first p l)).
Proof.
  induction l as [|a tl IH]; simpl; [auto|].
  intros H. inversion H as [|? ? Hnot Htl]; subst.
  destruct (p a); simpl; [assumption|].
  constructor; [|now apply IH].
  intros Hin. apply Hnot. apply in_map_iff in Hin. destruct Hin as (x & Hx & Hin).
  apply in_map_iff. exists x. split; [assumption|]. now apply delete_first_incl in Hin.
Qed.

Lemma Forall_delete_first {A} (P : A -> Prop) (p : A -> bool) (l : list A) :
  Forall P l -> Forall P (delete_first p l).
Proof.
  intros Hl. induction Hl as [|a tl Ha Htl IH]; simpl; [constructor|].
  destruct (p a); [assumption | now constructor].
Qed.

(** The tables with the same records up to the columns that clocking,
    confirming and verifying may write. *)
Lemma well_formed_same_keys (db db' : DB) :
  map record_key (attendance_records db') = map record_key (attendance_records db) ->
  attendance_seq db' = attendance_seq db ->
  attendance_well_formed db -> attendance_well_formed db'.
Proof.
  intros Hkeys Hseq (Hids & Hbelow & Hdays).
  assert (Hid : map AttendanceRecord.id (attendance_records db')
                = map AttendanceRecord.id (attendance_records db)).
  { pose proof (f_equal (map (fun k : Z * Z * date.t => fst (fst k))) Hkeys) as H.
    rewrite !map_map in H. exact H. }
  assert (Hday : map day_key (attendance_records db')
                 = map day_key (attendance_records db)).
  { pose proof (f_equal (map (fun k : Z * Z * date.t => (snd (fst k), snd k))) Hkeys)
      as H.
    rewrite !map_map in H. exact H. }
  unfold attendance_well_formed. rewrite Hid, Hday, Hseq.
  split; [assumption|]. split; [|assumption].
  apply Forall_forall. intros r Hr.
  assert (Hin : In (AttendanceRecord.id r) (map AttendanceRecord.id (attendance_records db))).
  { rewrite <- Hid. now apply in_map. }
  apply in_map_iff in Hin. destruct Hin as (r0 & <- & Hr0).
  rewrite Forall_forall in Hbelow. now apply Hbelow.
Qed.

(** X3. [mark_attendance] keeps the attendance table well formed,
    whoever calls it with whatever payload: primary keys stay distinct
    and below the sequence, and no employee gets a second record for a
    day. *)
Theorem mark_attendance_keeps_well_formed
    (int : string -> option Z) (fromisoformat : string -> option datetime.t)
    (today : date.t) (db : DB) (payload : MarkAttendanceRequest.t) (user : Employee.t) :
  attendance_well_formed db ->
  attendance_well_formed
    (snd (run (mark_attendance int fromisoformat today payload user) db)).
Proof.
  intros Hwf. unfold mark_attendance. run_request.
  destruct (int (MarkAttendanceRequest.employeeId payload)) as [eid|]; simpl;
    [|assumption].
  destruct (parse_clock_time int fromisoformat
              (MarkAttendanceRequest.clockIn payload) today) as [cin|e]; simpl;
    [|assumption].
  destruct (find _ (attendance_records db)) as [found|] eqn:Hfind; simpl.
  - assert (Hsame : forall v, record_key v = record_key found ->
              attendance_well_formed
                (with_attendance_records
                   (replace_first
                      (fun r => (AttendanceRecord.employee_id r =? eid)
                                && date.eqb (AttendanceRecord.date r) today)
                      v (attendance_records db)) db)).
    { intros v Hv. apply well_formed_same_keys with (db := db);
        [|reflexivity|assumption].
      simpl. now apply map_replace_first with (x := found). }
    destruct (truthy (MarkAttendanceRequest.clockOut payload)); simpl.
    + destruct (parse_clock_time int fromisoformat _ today) as [t|e]; simpl;
        [|assumption].
      apply Hsame. now destruct found.
    + apply Hsame. now destruct found.
  - destruct (parse_optional_clock int fromisoformat _ today) as [t|e]; simpl;
      [|assumption].
    destruct Hwf as (Hids & Hbelow & Hdays).
    unfold attendance_well_formed. simpl. rewrite !map_app. simpl.
    split; [|split].
    + apply NoDup_app_iff_snoc; [assumption|].
      intros Hin. apply in_map_iff in Hin. destruct Hin as (r & Hr & Hin).
      rewrite Forall_forall in Hbelow. specialize (Hbelow r Hin). lia.
    + apply Forall_app. split.
      * eapply Forall_impl; [|exact Hbelow]. simpl. intros; lia.
      * constructor; [simpl; lia | constructor].
    + apply NoDup_app_iff_snoc; [assumption|].
      intros Hin. apply in_map_iff in Hin. destruct Hin as (r & Hr & Hin).
      apply (find_none _ _ Hfind) in Hin. simpl in Hin.
      unfold day_key in Hr. injection Hr as He Hd.
      rewrite He, Z.eqb_refl in Hin. simpl in Hin.
      apply (proj2 (date_eqb_eq _ _)) in Hd. congruence.
Qed.

Lemma sample_well_formed : attendance_well_formed Sample.db.
Proof.
  unfold attendance_well_formed. simpl. split; [|split].
  - repeat constructor; simpl; intuition discriminate.
  - repeat constructor; simpl; lia.
  - repeat constructor; simpl; intuition discriminate.
Qed.

(** Ned clocks in on the sample database. *)
Lemma mark_attendance_keeps_well_formed_witness :
  attendance_well_formed
    (snd (run (mark_attendance Sample.int_decimal Sample.no_iso Sample.day1
                 (MarkAttendanceRequest.mk "5" "09:00" None "Present") Sample.ned)
              Sample.db)).
Proof.
  exact (mark_attendance_keeps_well_formed Sample.int_decimal Sample.no_iso Sample.day1
           Sample.db (MarkAttendanceRequest.mk "5" "09:00" None "Present") Sample.ned
           sample_well_formed).
Defined.

(** Case analysis on every test of a handler body. *)
Ltac split_tests :=
  repeat (simpl;
          match goal with
          | |- context [match ?x with _ => _ end] =>
              lazymatch x with
              | context [match _ with _ => _ end] => fail
              | _ => destruct x eqn:?
              end
          end);
  simpl.

(** X4. [update_attendance], [confirm_attendance] and
    [create_attendance_entry] never add, remove, reorder or re-own an
    attendance record, and never move a record to another day: after
    any such request, successful or not, the table has the same
    records by primary key, owner and date, and the sequence is where
    it was.  With [delete_attendance], which only removes a record,
    they keep the attendance table well formed. *)
Theorem attendance_requests_keep_records
    (int : string -> option Z) (fromisoformat : string -> option datetime.t)
    (utcnow now : datetime.t) (entry_key : Z) (db : DB) (user : Employee.t) :
  (forall record_id payload,
      let db' := snd (run (update_attendance int fromisoformat record_id payload user) db) in
      map record_key (attendance_records db') = map record_key (attendance_records db)
      /\ attendance_seq db' = attendance_seq db)
  /\ (forall record_id,
        let db' := snd (run (confirm_attendance int utcnow record_id user) db) in
        map record_key (attendance_records db') = map record_key (attendance_records db)
        /\ attendance_seq db' = attendance_seq db)
  /\ (forall record_id payload,
        let db' := snd (run (create_attendance_entry int now entry_key record_id payload user)
                            db) in
        map record_key (attendance_records db') = map record_key (attendance_records db)
        /\ attendance_seq db' = attendance_seq db)
  /\ (attendance_well_formed db ->
      forall record_id payload entry,
        attendance_well_formed
          (snd (run (update_attendance int fromisoformat record_id payload user) db))
        /\ attendance_well_formed
             (snd (run (confirm_attendance int utcnow record_id user) db))
        /\ attendance_well_formed
             (snd (run (create_attendance_entry int now entry_key record_id entry user) db))
        /\ attendance_well_formed (snd (run (delete_attendance int record_id user) db))).
Proof.
  assert (Hsame : forall rid found v,
    find (fun r => AttendanceRecord.id r =? rid) (attendance_records db) = Some found ->
    record_key v = record_key found ->
    map record_key
      (replace_first (fun r => AttendanceRecord.id r =? rid) v (attendance_records db))
    = map record_key (attendance_records db)).
  { intros rid found v Hf Hv. now apply map_replace_first with (x := found). }
  assert (Hupdate : forall record_id payload,
    let db' := snd (run (update_attendance int fromisoformat record_id payload user) db) in
    map record_key (attendance_records db') = map record_key (attendance_records db)
    /\ attendance_seq db' = attendance_seq db).
  { intros record_id payload. unfold update_attendance. run_request.
    split_tests; split; try reflexivity;
      (eapply Hsame; [eassumption|];
       match goal with |- record_key _ = record_key ?f => now destruct f end). }
  assert (Hconfirm : forall record_id,
    let db' := snd (run (confirm_attendance int utcnow record_id user) db) in
    map record_key (attendance_records db') = map record_key (attendance_records db)
    /\ attendance_seq db' = attendance_seq db).
  { intros record_id. unfold confirm_attendance. run_request.
    split_tests; split; try reflexivity;
      (eapply Hsame; [eassumption|];
       match goal with |- record_key _ = record_key ?f => now destruct f end). }
  assert (Hentry : forall record_id payload,
    let db' := snd (run (create_attendance_entry int now entry_key record_id payload user)
                        db) in
    map record_key (attendance_records db') = map record_key (attendance_records db)
    /\ attendance_seq db' = attendance_seq db).
  { intros record_id payload. unfold create_attendance_entry. run_request.
    split_tests; split; try reflexivity;
      (eapply Hsame; [eassumption|];
       match goal with |- record_key _ = record_key ?f => now destruct f end). }
  split; [exact Hupdate|]. split; [exact Hconfirm|]. split; [exact Hentry|].
  intros Hwf record_id payload entry.
  split; [|split; [|split]].
  - destruct (Hupdate record_id payload) as (Hk & Hs).
    now apply well_formed_same_keys with (db := db).
  - destruct (Hconfirm record_id) as (Hk & Hs).
    now apply well_formed_same_keys with (db := db).
  - destruct (Hentry record_id entry) as (Hk & Hs).
    now apply well_formed_same_keys with (db := db).
  - unfold delete_attendance.
    destruct (negb (RoleEnum.eqb (Employee.role user) RoleEnum.admin)); [exact Hwf|].
    run_request.
    destruct (int record_id) as [rid|]; simpl; [|exact Hwf].
    destruct (find _ (attendance_records db)); simpl; [|exact Hwf].
    destruct Hwf as (Hids & Hbelow & Hdays).
    unfold attendance_well_formed. simpl.
    split; [now apply NoDup_map_delete_first|].
    split; [now apply Forall_delete_first | now apply NoDup_map_delete_first].
Qed.

(** Max verifies Eve's record on the sample database. *)
Lemma attendance_requests_keep_records_witness :
  attendance_well_formed
    (snd (run (update_attendance Sample.int_decimal Sample.no_iso "1"
                 (Some Sample.approval_only) Sample.max) Sample.db)).
Proof.
  exact (proj1 (proj2 (proj2 (proj2
           (attendance_requests_keep_records Sample.int_decimal Sample.no_iso
              Sample.noon Sample.noon 9 Sample.db Sample.max))) sample_well_formed
           "1" (Some Sample.approval_only)
           (CreateAttendanceEntryRequest.mk "in" None))).
Defined.

(** ** More on updating an attendance record *)

(** X5. [update_attendance] looks only at whether [approvalStatus] is
    present, never at its value: two payloads that differ in a non-empty
    [approvalStatus] alone give the same response and the same stored
    database, for every caller. *)
Theorem update_attendance_ignores_approval_value
    (int : string -> option Z) (fromisoformat : string -> option datetime.t)
    (db : DB) (record_id : string) (user : Employee.t)
    (wanted other : string) (clockOut status : option string) :
  wanted <> "" -> other <> "" ->
  run (update_attendance int fromisoformat record_id
         (Some (UpdateAttendanceRequest.mk (Some wanted) clockOut status)) user) db
  = run (update_attendance int fromisoformat record_id
           (Some (UpdateAttendanceRequest.mk (Some other) clockOut status)) user) db.
Proof.
  intros Hw Ho.
  destruct wanted as [|c1 s1]; [congruence|].
  destruct other as [|c2 s2]; [congruence|].
  reflexivity.
Qed.

(** An admin who sends "Pending_Manager" approves, as with "Approved". *)
Lemma update_attendance_ignores_approval_value_witness :
  run (update_attendance Sample.int_decimal Sample.no_iso "1"
         (Some (UpdateAttendanceRequest.mk (Some "Pending_Manager") None None))
         Sample.ada) Sample.db
  = run (update_attendance Sample.int_decimal Sample.no_iso "1"
           (Some (UpdateAttendanceRequest.mk (Some "Approved") None None))
           Sample.ada) Sample.db.
Proof.
  exact (update_attendance_ignores_approval_value Sample.int_decimal Sample.no_iso
           Sample.db "1" Sample.ada "Pending_Manager" "Approved" None None
           ltac:(discriminate) ltac:(discriminate)).
Defined.

Lemma approval_step_refl user a : approval_step user a a.
Proof. now left. Qed.

(** X6. Whatever the caller and the payload, one [update_attendance]
    moves the approval status of a stored record in one of two ways
    only: a manager moves somebody else's record from Pending_Manager to
    Pending_Admin, or an admin sets Approved; every other record, and
    every record after a refused request, keeps its status.  So a caller
    of role employee never changes an approval status, and a record
    that is Approved stays Approved. *)
Theorem update_attendance_approval_moves
    (int : string -> option Z) (fromisoformat : string -> option datetime.t)
    (db : DB) (record_id : string) (payload : option UpdateAttendanceRequest.t)
    (user : Employee.t) (i : nat) (rec : AttendanceRecord.t) :
  nth_error (attendance_records db) i = Some rec ->
  exists rec',
    nth_error (attendance_records
                 (snd (run (update_attendance int fromisoformat record_id payload user) db)))
              i = Some rec'
    /\ approval_step user rec rec'
    /\ (Employee.role user = RoleEnum.employee ->
        AttendanceRecord.approval_status rec' = AttendanceRecord.approval_status rec)
    /\ (AttendanceRecord.approval_status rec = Some "Approved" ->
        AttendanceRecord.approval_status rec' = Some "Approved").
Proof.
  intros Hi.
  assert (Hstep : exists rec',
    nth_error (attendance_records
                 (snd (run (update_attendance int fromisoformat record_id payload user) db)))
              i = Some rec'
    /\ approval_step user rec rec').
  { unfold update_attendance. run_request.
    split_tests;
      try (exists rec; split; [assumption | apply approval_step_refl]);
      (eapply replace_first_pointwise;
       [apply approval_step_refl | eassumption | | exact Hi]);
      try (left; match goal with |- _ = AttendanceRecord.approval_status ?f =>
                   now destruct f end).
    all: try (right; left; repeat split; try assumption;
              [ now apply Z.eqb_neq
              | match goal with
                | H : negb (option_eqb String.eqb _ _) = false |- _ =>
                    apply negb_false_iff in H; now apply option_eqb_string_spec in H
                end ]).
    all: right; right; split; [assumption | reflexivity]. }
  destruct Hstep as (rec' & Hnth & Hstep).
  exists rec'. split; [assumption|]. split; [assumption|].
  split.
  - intros Hrole. destruct Hstep as [H | [(H & _) | (H & _)]]; congruence.
  - intros Happ. destruct Hstep as [H | [(_ & _ & H & _) | (_ & H)]]; congruence.
Qed.

(** Max verifies Eve's record: its status moves from Pending_Manager to
    Pending_Admin. *)
Lemma update_attendance_approval_moves_witness :
  exists rec',
    nth_error (attendance_records
                 (snd (run (update_attendance Sample.int_decimal Sample.no_iso "1"
                              (Some Sample.approval_only) Sample.max) Sample.db))) 0
    = Some rec'
    /\ approval_step Sample.max Sample.eve_rec rec'.
Proof.
  destruct (update_attendance_approval_moves Sample.int_decimal Sample.no_iso Sample.db
              "1" (Some Sample.approval_only) Sample.max 0%nat Sample.eve_rec eq_refl)
    as (rec' & Hnth & Hstep & _).
  exists rec'. split; assumption.
Defined.




(** ** Attendance entries *)

Lemma entries_count_snoc (db : DB) (e : AttendanceEntry.t) (rid : Z) :
  entries_count (with_attendance_entries (attendance_entries db ++ [e])%list db) rid
  = entries_count db rid
    + (if AttendanceEntry.attendance_record_id e =? rid then 1 else 0).
Proof.
  unfold entries_count. simpl. rewrite filter_app, length_app. simpl.
  destruct (AttendanceEntry.attendance_record_id e =? rid); simpl; lia.
Qed.

(** The guards and the writes of [create_attendance_entry] on a stored
    record. *)
Lemma create_attendance_entry_run
    (int : string -> option Z) (now : datetime.t) (entry_key : Z) (db : DB)
    (record_id : string) (rid : Z) (rec : AttendanceRecord.t)
    (payload : CreateAttendanceEntryRequest.t) (user : Employee.t) :
  let by_id := fun r => AttendanceRecord.id r =? rid in
  let entryType := CreateAttendanceEntryRequest.entryType payload in
  let entry := AttendanceEntry.mk entry_key rid entryType now
                 (CreateAttendanceEntryRequest.reason payload) in
  int record_id = Some rid ->
  find by_id (attendance_records db) = Some rec ->
  run (create_attendance_entry int now entry_key record_id payload user) db
  = if RoleEnum.eqb (Employee.role user) RoleEnum.employee
       && negb (AttendanceRecord.employee_id rec =? Employee.id user)
    then (Raised (HTTPException 403 "You can only add entries to your own attendance"), db)
    else if negb (String.eqb entryType "in" || String.eqb entryType "out")
    then (Raised (HTTPException 400 "Entry type must be 'in' or 'out'"), db)
    else (Ok (entry_view entry, "Check-" ++ entryType ++ " recorded successfully"),
          with_attendance_records
            (if String.eqb entryType "out"
             then replace_first by_id
                    (AttendanceRecord.set_check_out_time (Some now) rec)
                    (attendance_records db)
             else attendance_records db)
            (with_attendance_entries (attendance_entries db ++ [entry])%list db)).
Proof.
  intros by_id entryType entry Hint Hfind.
  unfold create_attendance_entry. run_request. rewrite Hint. simpl.
  fold by_id. rewrite Hfind. fold entryType.
  destruct (RoleEnum.eqb _ _ && _); [reflexivity|].
  destruct (negb _); [reflexivity|].
  destruct (String.eqb entryType "out"); simpl; [reflexivity|].
  now destruct db.
Qed.

(** X8. On a stored record, [create_attendance_entry] refuses a caller of
    role employee who is not the owner (403), then an entry type other
    than "in" and "out" (400), storing nothing.  Otherwise it appends one
    entry stamped [now] to the record's entries, so that the record has
    one entry more; an "out" entry also sets the record's check-out time
    to [now], overwriting any earlier one, and an "in" entry leaves all
    records as they were. *)
Theorem create_attendance_entry_effect
    (int : string -> option Z) (now : datetime.t) (entry_key : Z) (db : DB)
    (record_id : string) (rid : Z) (rec : AttendanceRecord.t)
    (payload : CreateAttendanceEntryRequest.t) (user : Employee.t) :
  let by_id := fun r => AttendanceRecord.id r =? rid in
  let entryType := CreateAttendanceEntryRequest.entryType payload in
  let out := run (create_attendance_entry int now entry_key record_id payload user) db in
  int record_id = Some rid ->
  find by_id (attendance_records db) = Some rec ->
  (Employee.role user = RoleEnum.employee ->
   AttendanceRecord.employee_id rec <> Employee.id user ->
   out = (Raised (HTTPException 403 "You can only add entries to your own attendance"), db))
  /\ (Employee.role user <> RoleEnum.employee
      \/ AttendanceRecord.employee_id rec = Employee.id user ->
      entryType <> "in" -> entryType <> "out" ->
      out = (Raised (HTTPException 400 "Entry type must be 'in' or 'out'"), db))
  /\ (Employee.role user <> RoleEnum.employee
      \/ AttendanceRecord.employee_id rec = Employee.id user ->
      entryType = "in" \/ entryType = "out" ->
      succeeds out = true
      /\ attendance_entries (snd out)
         = (attendance_entries db
            ++ [AttendanceEntry.mk entry_key rid entryType now
                  (CreateAttendanceEntryRequest.reason payload)])%list
      /\ entries_count (snd out) rid = entries_count db rid + 1
      /\ (entryType = "in" -> attendance_records (snd out) = attendance_records db)
      /\ (entryType = "out" ->
          find by_id (attendance_records (snd out))
          = Some (AttendanceRecord.set_check_out_time (Some now) rec))).
Proof.
  intros by_id entryType out Hint Hfind. subst out.
  rewrite (create_attendance_entry_run int now entry_key db record_id rid rec payload user
             Hint Hfind).
  fold by_id entryType.
  assert (Hguard : Employee.role user <> RoleEnum.employee
                   \/ AttendanceRecord.employee_id rec = Employee.id user ->
                   RoleEnum.eqb (Employee.role user) RoleEnum.employee
                   && negb (AttendanceRecord.employee_id rec =? Employee.id user) = false).
  { intros [Hr | Ho].
    - destruct (Employee.role user); [congruence | reflexivity | reflexivity].
    - rewrite Ho, Z.eqb_refl. apply andb_false_r. }
  split; [|split].
  - intros Hrole Hother. rewrite Hrole. apply Z.eqb_neq in Hother.
    now rewrite Hother.
  - intros Hallowed Hin Hout. rewrite (Hguard Hallowed).
    apply String.eqb_neq in Hin, Hout. now rewrite Hin, Hout.
  - intros Hallowed Htype. rewrite (Hguard Hallowed).
    assert (Hvalid : negb (String.eqb entryType "in" || String.eqb entryType "out") = false).
    { destruct Htype as [-> | ->]; reflexivity. }
    rewrite Hvalid. unfold succeeds. simpl.
    split; [reflexivity|]. split; [reflexivity|]. split; [|split].
    + unfold entries_count. simpl. rewrite filter_app, length_app. simpl.
      rewrite Z.eqb_refl. simpl. lia.
    + intros ->. reflexivity.
    + intros ->. simpl.
      apply find_replace_first_same with (x := rec); [assumption|].
      subst by_id. simpl. apply Z.eqb_eq.
      now apply find_by_id_attendance with (l := attendance_records db).
Qed.

(** Max, a manager, clocks Eve out at noon through an "out" entry. *)
Lemma create_attendance_entry_effect_witness :
  find (fun r => AttendanceRecord.id r =? 1)
       (attendance_records
          (snd (run (create_attendance_entry Sample.int_decimal Sample.noon 3 "1"
                       (CreateAttendanceEntryRequest.mk "out" None) Sample.max)
                    Sample2.db)))
  = Some (AttendanceRecord.set_check_out_time (Some Sample.noon) Sample.eve_rec).
Proof.
  pose proof (create_attendance_entry_effect Sample.int_decimal Sample.noon 3 Sample2.db
                "1" 1 Sample.eve_rec (CreateAttendanceEntryRequest.mk "out" None)
                Sample.max eq_refl eq_refl) as H.
  cbv zeta in H. destruct H as (_ & _ & Hok).
  assert (Ha : Employee.role Sample.max <> RoleEnum.employee) by discriminate.
  specialize (Hok (or_introl Ha) (or_intror eq_refl)).
  destruct Hok as (_ & _ & _ & _ & Hout).
  exact (Hout eq_refl).
Defined.

(** X9. A record with no check-in time and no entry cannot be confirmed;
    once its owner, or an admin, has added one entry, the same caller can
    confirm it. *)
Theorem entry_then_confirm
    (int : string -> option Z) (now utcnow : datetime.t) (entry_key : Z) (db : DB)
    (record_id : string) (rid : Z) (rec : AttendanceRecord.t)
    (payload : CreateAttendanceEntryRequest.t) (user : Employee.t) :
  int record_id = Some rid ->
  find (fun r => AttendanceRecord.id r =? rid) (attendance_records db) = Some rec ->
  AttendanceRecord.employee_id rec = Employee.id user
  \/ Employee.role user = RoleEnum.admin ->
  AttendanceRecord.is_confirmed rec <> Some true ->
  AttendanceRecord.check_in_time rec = None ->
  entries_count db rid = 0 ->
  CreateAttendanceEntryRequest.entryType payload = "in"
  \/ CreateAttendanceEntryRequest.entryType payload = "out" ->
  run (confirm_attendance int utcnow record_id user) db
  = (Raised (HTTPException 400 "No attendance entries to confirm"), db)
  /\ succeeds
       (run (confirm_attendance int utcnow record_id user)
            (snd (run (create_attendance_entry int now entry_key record_id payload user)
                      db)))
     = true.
Proof.
  intros Hint Hfind Hauth Hconf Hin Hcount Htype.
  assert (Hid : AttendanceRecord.id rec = rid)
    by now apply find_by_id_attendance with (l := attendance_records db).
  assert (Hgate : negb (AttendanceRecord.employee_id rec =? Employee.id user)
                  && negb (RoleEnum.eqb (Employee.role user) RoleEnum.admin) = false).
  { destruct Hauth as [Ho | Ha].
    - now rewrite Ho, Z.eqb_refl.
    - rewrite Ha. apply andb_false_r. }
  assert (Hnot : match AttendanceRecord.is_confirmed rec with
                 | Some b => b
                 | None => false
                 end = false).
  { destruct (AttendanceRecord.is_confirmed rec) as [[|]|]; congruence. }
  split.
  - rewrite (confirm_attendance_run int utcnow db record_id rid rec user Hint Hfind).
    rewrite Hgate, Hnot, Hid, Hcount, Hin. reflexivity.
  - rewrite (create_attendance_entry_run int now entry_key db record_id rid rec payload
               user Hint Hfind).
    assert (Hguard : RoleEnum.eqb (Employee.role user) RoleEnum.employee
                     && negb (AttendanceRecord.employee_id rec =? Employee.id user)
                     = false).
    { destruct Hauth as [Ho | Ha].
      - rewrite Ho, Z.eqb_refl. apply andb_false_r.
      - now rewrite Ha. }
    rewrite Hguard.
    assert (Hvalid : negb (String.eqb (CreateAttendanceEntryRequest.entryType payload) "in"
                           || String.eqb (CreateAttendanceEntryRequest.entryType payload) "out")
                     = false).
    { destruct Htype as [H | H]; 
        rewrite H; reflexivity. }
    rewrite Hvalid.
    cbn [snd].
    set (entry := AttendanceEntry.mk entry_key rid
                    (CreateAttendanceEntryRequest.entryType payload) now
                    (CreateAttendanceEntryRequest.reason payload)).
    set (db1 := with_attendance_records _ _).
    assert (Hcount1 : entries_count db1 rid = 1).
    { subst db1. unfold entries_count. simpl. rewrite filter_app, length_app. simpl.
      rewrite Z.eqb_refl. simpl. unfold entries_count in Hcount. lia. }
    assert (Hfind1 : exists rec1,
      find (fun r => AttendanceRecord.id r =? rid) (attendance_records db1) = Some rec1
      /\ AttendanceRecord.id rec1 = rid
      /\ AttendanceRecord.employee_id rec1 = AttendanceRecord.employee_id rec
      /\ AttendanceRecord.is_confirmed rec1 = AttendanceRecord.is_confirmed rec).
    { subst db1. simpl.
      destruct (String.eqb (CreateAttendanceEntryRequest.entryType payload) "out").
      - eexists. split.
        + apply find_replace_first_same with (x := rec); [assumption|].
          simpl. now apply Z.eqb_eq.
        + now destruct rec.
      - exists rec. auto. }
    destruct Hfind1 as (rec1 & Hfind1 & Hid1 & Hown1 & Hconf1).
    rewrite (confirm_attendance_run int utcnow db1 record_id rid rec1 user Hint Hfind1).
    rewrite Hown1, Hconf1, Hgate, Hnot, Hid1, Hcount1. reflexivity.
Qed.

(** Eve adds an "in" entry to her blank record and confirms it. *)
Lemma entry_then_confirm_witness :
  run (confirm_attendance Sample.int_decimal Sample.noon "7" Sample.eve) Sample2.db
  = (Raised (HTTPException 400 "No attendance entries to confirm"), Sample2.db)
  /\ succeeds
       (run (confirm_attendance Sample.int_decimal Sample.noon "7" Sample.eve)
            (snd (run (create_attendance_entry Sample.int_decimal Sample.nine 3 "7"
                         (CreateAttendanceEntryRequest.mk "in" None) Sample.eve)
                      Sample2.db)))
     = true.
Proof.
  exact (entry_then_confirm Sample.int_decimal Sample.nine Sample.noon 3 Sample2.db
           "7" 7 Sample2.blank_rec (CreateAttendanceEntryRequest.mk "in" None) Sample.eve
           eq_refl eq_refl (or_introl eq_refl) ltac:(discriminate) eq_refl eq_refl
           (or_introl eq_refl)).
Defined.

Lemma find_delete_first_other {A} (p q : A -> bool) (l : list A) (x : A) :
  find p l = Some x -> q x = false ->
  find q (delete_first p l) = find q l.
Proof.
  induction l as [|a tl IH]; simpl; [discriminate|].
  destruct (p a) eqn:Ha; intros Hf Hx.
  - injection Hf as ->. now rewrite Hx.
  - simpl. destruct (q a); [reflexivity|]. now apply IH.
Qed.

Lemma filter_delete_first_length {A} (p q : A -> bool) (l : list A) (x : A) :
  find p l = Some x ->
  List.length (filter q l)
  = (List.length (filter q (delete_first p l)) + (if q x then 1 else 0))%nat.
Proof.
  induction l as [|a tl IH]; simpl; [discriminate|].
  destruct (p a) eqn:Ha; intros Hf.
  - injection Hf as ->. destruct (q x); simpl; lia.
  - simpl. specialize (IH Hf). destruct (q a); simpl; lia.
Qed.

Lemma delete_first_snoc {A} (p : A -> bool) (l : list A) (v : A) :
  find p l = None -> p v = true -> delete_first p (l ++ [v])%list = l.
Proof.
  induction l as [|a tl IH]; simpl; intros Hf Hv.
  - now rewrite Hv.
  - destruct (p a); [discriminate|]. now rewrite IH.
Qed.

(** The guards and the write of [delete_attendance_entry] for ids that
    parse. *)
Lemma delete_attendance_entry_run
    (int : string -> option Z) (db : DB) (record_id entry_id : string) (rid eid : Z)
    (user : Employee.t) :
  let mine := fun e => (AttendanceEntry.id e =? eid)
                       && (AttendanceEntry.attendance_record_id e =? rid) in
  int record_id = Some rid ->
  int entry_id = Some eid ->
  run (delete_attendance_entry int record_id entry_id user) db
  = if negb (is_admin_or_manager user)
    then (Raised (HTTPException 403
                    "Only admin or manager can delete attendance entries"), db)
    else match find mine (attendance_entries db) with
         | None => (Raised (HTTPException 404 "Attendance entry not found"), db)
         | Some _ =>
             (Ok "Attendance entry deleted",
              with_attendance_entries (delete_first mine (attendance_entries db)) db)
         end.
Proof.
  intros mine Hrid Heid. unfold delete_attendance_entry.
  destruct (negb (is_admin_or_manager user)); [reflexivity|].
  run_request. rewrite Heid. simpl. rewrite Hrid. simpl. fold mine.
  destruct (find mine (attendance_entries db)); reflexivity.
Qed.

(** X10. [delete_attendance_entry] refuses every caller of role employee
    with status 403, whatever the ids.  For an admin or a manager it
    answers 404 unless an entry with that id belongs to the record named
    in the path; when it does, that entry is removed: the record has one
    entry fewer, every other record has as many entries as before, and
    the attendance records themselves are untouched. *)
Theorem delete_attendance_entry_effect
    (int : string -> option Z) (db : DB) (record_id entry_id : string) (user : Employee.t) :
  let out := run (delete_attendance_entry int record_id entry_id user) db in
  (Employee.role user = RoleEnum.employee ->
   out = (Raised (HTTPException 403
                    "Only admin or manager can delete attendance entries"), db))
  /\ (forall rid eid,
        Employee.role user <> RoleEnum.employee ->
        int record_id = Some rid ->
        int entry_id = Some eid ->
        let mine := fun e => (AttendanceEntry.id e =? eid)
                             && (AttendanceEntry.attendance_record_id e =? rid) in
        (find mine (attendance_entries db) = None ->
         out = (Raised (HTTPException 404 "Attendance entry not found"), db))
        /\ (forall entry,
              find mine (attendance_entries db) = Some entry ->
              fst out = Ok "Attendance entry deleted"
              /\ attendance_entries (snd out) = delete_first mine (attendance_entries db)
              /\ entries_count (snd out) rid = entries_count db rid - 1
              /\ (forall other, other <> rid ->
                    entries_count (snd out) other = entries_count db other)
              /\ attendance_records (snd out) = attendance_records db)).
Proof.
  intros out. split.
  - intros Hrole. subst out. unfold delete_attendance_entry, is_admin_or_manager.
    now rewrite Hrole.
  - intros rid eid Hrole Hrid Heid mine. subst out.
    rewrite (delete_attendance_entry_run int db record_id entry_id rid eid user Hrid Heid).
    fold mine.
    assert (Hgate : negb (is_admin_or_manager user) = false).
    { unfold is_admin_or_manager. destruct (Employee.role user); [congruence| |];
        reflexivity. }
    rewrite Hgate. split.
    + intros ->. reflexivity.
    + intros entry Hfind. rewrite Hfind. simpl.
      assert (Hmine : mine entry = true) by now apply find_some in Hfind.
      subst mine. simpl in Hmine. apply andb_prop in Hmine. destruct Hmine as (_ & Hrec).
      split; [reflexivity|]. split; [reflexivity|]. split; [|split; [|reflexivity]].
      * unfold entries_count. simpl.
        rewrite (filter_delete_first_length _
                   (fun e => AttendanceEntry.attendance_record_id e =? rid)
                   (attendance_entries db) entry Hfind).
        rewrite Hrec. lia.
      * intros other Hother. unfold entries_count. simpl.
        rewrite (filter_delete_first_length _
                   (fun e => AttendanceEntry.attendance_record_id e =? other)
                   (attendance_entries db) entry Hfind).
        apply Z.eqb_eq in Hrec. rewrite Hrec.
        assert (Hne : (rid =? other) = false) by (apply Z.eqb_neq; congruence).
        rewrite Hne. lia.
Qed.

(** Max deletes the "out" entry of Eve's record: one entry is left. *)
Lemma delete_attendance_entry_effect_witness :
  entries_count
    (snd (run (delete_attendance_entry Sample.int_decimal "1" "2" Sample.max) Sample2.db))
    1
  = entries_count Sample2.db 1 - 1.
Proof.
  pose proof (delete_attendance_entry_effect Sample.int_decimal Sample2.db "1" "2"
                Sample.max) as H.
  cbv zeta in H. destruct H as (_ & H).
  assert (Ha : Employee.role Sample.max <> RoleEnum.employee) by discriminate.
  specialize (H 1 2 Ha eq_refl eq_refl). destruct H as (_ & H).
  specialize (H Sample2.entry_out eq_refl).
  destruct H as (_ & _ & Hcount & _). exact Hcount.
Defined.

(** X11. An entry that a manager or an admin has just created on a
    stored record, under a key that no entry of that record had, can be
    deleted again by the same caller, and the table of entries is then
    what it was before the two requests. *)
Theorem create_then_delete_entry
    (int : string -> option Z) (now : datetime.t) (entry_key : Z) (db : DB)
    (record_id entry_id : string) (rid : Z) (rec : AttendanceRecord.t)
    (payload : CreateAttendanceEntryRequest.t) (user : Employee.t) :
  let mine := fun e => (AttendanceEntry.id e =? entry_key)
                       && (AttendanceEntry.attendance_record_id e =? rid) in
  let db1 := snd (run (create_attendance_entry int now entry_key record_id payload user)
                      db) in
  int record_id = Some rid ->
  int entry_id = Some entry_key ->
  find (fun r => AttendanceRecord.id r =? rid) (attendance_records db) = Some rec ->
  Employee.role user <> RoleEnum.employee ->
  CreateAttendanceEntryRequest.entryType payload = "in"
  \/ CreateAttendanceEntryRequest.entryType payload = "out" ->
  find mine (attendance_entries db) = None ->
  fst (run (delete_attendance_entry int record_id entry_id user) db1)
  = Ok "Attendance entry deleted"
  /\ attendance_entries
       (snd (run (delete_attendance_entry int record_id entry_id user) db1))
     = attendance_entries db.
Proof.
  intros mine db1 Hrid Heid Hfind Hrole Htype Hfresh.
  assert (Hgate : negb (is_admin_or_manager user) = false).
  { unfold is_admin_or_manager. destruct (Employee.role user); [congruence| |];
      reflexivity. }
  assert (Hdb1 : attendance_entries db1
                 = (attendance_entries db
                    ++ [AttendanceEntry.mk entry_key rid
                          (CreateAttendanceEntryRequest.entryType payload) now
                          (CreateAttendanceEntryRequest.reason payload)])%list).
  { subst db1.
    rewrite (create_attendance_entry_run int now entry_key db record_id rid rec payload
               user Hrid Hfind).
    assert (Hguard : RoleEnum.eqb (Employee.role user) RoleEnum.employee
                     && negb (AttendanceRecord.employee_id rec =? Employee.id user)
                     = false).
    { destruct (Employee.role user); [congruence| |]; reflexivity. }
    rewrite Hguard.
    destruct Htype as [-> | ->]; reflexivity. }
  rewrite (delete_attendance_entry_run int db1 record_id entry_id rid entry_key user
             Hrid Heid).
  rewrite Hgate, Hdb1. fold mine.
  assert (Hnew : mine (AttendanceEntry.mk entry_key rid
                         (CreateAttendanceEntryRequest.entryType payload) now
                         (CreateAttendanceEntryRequest.reason payload)) = true).
  { subst mine. simpl. now rewrite !Z.eqb_refl. }
  rewrite find_snoc, Hfresh, Hnew. simpl.
  split; [reflexivity|]. now apply delete_first_snoc.
Qed.

(** Max adds an "in" entry under key 3 to Eve's record and deletes it. *)
Lemma create_then_delete_entry_witness :
  attendance_entries
    (snd (run (delete_attendance_entry Sample.int_decimal "1" "3" Sample.max)
              (snd (run (create_attendance_entry Sample.int_decimal Sample.noon 3 "1"
                           (CreateAttendanceEntryRequest.mk "in" None) Sample.max)
                        Sample2.db))))
  = attendance_entries Sample2.db.
Proof.
  assert (Ha : Employee.role Sample.max <> RoleEnum.employee) by discriminate.
  pose proof (create_then_delete_entry Sample.int_decimal Sample.noon 3 Sample2.db
                "1" "3" 1 Sample.eve_rec (CreateAttendanceEntryRequest.mk "in" None)
                Sample.max eq_refl eq_refl eq_refl Ha (or_introl eq_refl) eq_refl) as H.
  exact (proj2 H).
Defined.

(** ** Ordered results *)

Section OrderFacts.
Context {A : Type}.
Variable le : A -> A -> bool.
Hypothesis le_total : forall a b, le a b = true \/ le b a = true.

Let leP (a b : A) : Prop := le a b = true.

Lemma insert_by_HdRel (x a : A) (l : list A) :
  leP x a -> HdRel leP x l -> HdRel leP x (insert_by le a l).
Proof.
  intros Hxa Hx. destruct l as [|y tl]; simpl.
  - now constructor.
  - destruct (le a y); constructor; [assumption|]. now inversion Hx.
Qed.

Lemma insert_by_sorted (a : A) (l : list A) :
  Sorted leP l -> Sorted leP (insert_by le a l).
Proof.
  induction l as [|x tl IH]; simpl; intros Hs.
  - repeat constructor.
  - destruct (le a x) eqn:Hax.
    + constructor; [assumption|]. now constructor.
    + inversion Hs as [|? ? Htl Hhd]; subst.
      constructor; [now apply IH|].
      apply insert_by_HdRel; [|assumption].
      destruct (le_total a x) as [H | H]; [congruence | exact H].
Qed.

Lemma order_by_sorted (l : list A) : Sorted leP (order_by le l).
Proof.
  induction l as [|x tl IH]; simpl; [constructor|]. now apply insert_by_sorted.
Qed.

Lemma Sorted_skipn (n : nat) (l : list A) : Sorted leP l -> Sorted leP (skipn n l).
Proof.
  revert l. induction n as [|n IH]; intros l Hs; simpl; [assumption|].
  destruct l as [|x tl]; [constructor|]. apply IH. now inversion Hs.
Qed.

Lemma Sorted_firstn (n : nat) (l : list A) : Sorted leP l -> Sorted leP (firstn n l).
Proof.
  revert l. induction n as [|n IH]; intros l Hs; simpl; [constructor|].
  destruct l as [|x tl]; [constructor|].
  inversion Hs as [|? ? Htl Hhd]; subst.
  constructor; [now apply IH|].
  destruct tl as [|y tl']; destruct n; simpl; constructor. now inversion Hhd.
Qed.

Lemma page_sorted (skip limit : nat) (l : list A) :
  Sorted leP l -> Sorted leP (page skip limit l).
Proof. intros Hs. unfold page. now apply Sorted_firstn, Sorted_skipn. Qed.
End OrderFacts.

Lemma page_length {A} (skip limit : nat) (l : list A) :
  (List.length (page skip limit l) <= limit)%nat
  /\ (List.length (page skip limit l) <= List.length l)%nat.
Proof.
  unfold page. rewrite length_firstn, length_skipn. lia.
Qed.

Lemma opt_key_le_total (a b : option datetime.t) :
  opt_key_le a b = true \/ opt_key_le b a = true.
Proof.
  destruct a as [x|], b as [y|]; simpl; auto.
  destruct (Z.leb_spec (datetime.key x) (datetime.key y)); [now left|].
  right. apply Z.leb_le. lia.
Qed.

Lemma date_leb_total (a b : date.t) : date.leb a b = true \/ date.leb b a = true.
Proof.
  unfold date.leb.
  destruct (Z.leb_spec (date.toordinal a) (date.toordinal b)); [now left|].
  right. apply Z.leb_le. lia.
Qed.

(** X12. For a stored record, [get_attendance_entries] refuses a caller
    of role employee who is not the owner (403); every other caller
    receives the views of exactly the entries of that record, each once,
    in ascending order of their timestamps, and nothing is stored. *)
Theorem get_attendance_entries_ordered
    (int : string -> option Z) (db : DB) (record_id : string) (rid : Z)
    (rec : AttendanceRecord.t) (user : Employee.t) :
  int record_id = Some rid ->
  find (fun r => AttendanceRecord.id r =? rid) (attendance_records db) = Some rec ->
  (Employee.role user = RoleEnum.employee ->
   AttendanceRecord.employee_id rec <> Employee.id user ->
   run (get_attendance_entries int record_id user) db
   = (Raised (HTTPException 403 "You can only view your own attendance entries"), db))
  /\ (Employee.role user <> RoleEnum.employee
      \/ AttendanceRecord.employee_id rec = Employee.id user ->
      exists entries,
        run (get_attendance_entries int record_id user) db
        = (Ok (map entry_view entries), db)
        /\ Permutation
             (filter (fun e => AttendanceEntry.attendance_record_id e =? rid)
                     (attendance_entries db))
             entries
        /\ Sorted (fun a b => datetime.key (AttendanceEntry.timestamp a)
                              <= datetime.key (AttendanceEntry.timestamp b))
                  entries).
Proof.
  intros Hint Hfind. split.
  - intros Hrole Hother. unfold get_attendance_entries. run_request.
    rewrite Hint. simpl. rewrite Hfind, Hrole.
    apply Z.eqb_neq in Hother. now rewrite Hother.
  - intros Hallowed.
    assert (Hguard : RoleEnum.eqb (Employee.role user) RoleEnum.employee
                     && negb (AttendanceRecord.employee_id rec =? Employee.id user)
                     = false).
    { destruct Hallowed as [Hr | Ho].
      - destruct (Employee.role user); [congruence| |]; reflexivity.
      - rewrite Ho, Z.eqb_refl. apply andb_false_r. }
    eexists. split; [|split].
    + unfold get_attendance_entries. run_request.
      rewrite Hint. simpl. rewrite Hfind, Hguard. reflexivity.
    + apply order_by_perm.
    + assert (Htotal : forall a b, timestamp_asc a b = true \/ timestamp_asc b a = true).
      { intros a b. unfold timestamp_asc.
        destruct (Z.leb_spec (datetime.key (AttendanceEntry.timestamp a))
                             (datetime.key (AttendanceEntry.timestamp b))); [now left|].
        right. apply Z.leb_le. lia. }
      pose proof (order_by_sorted timestamp_asc Htotal
                    (filter (fun e => AttendanceEntry.attendance_record_id e =? rid)
                            (attendance_entries db))) as Hs.
      eapply Sorted_ind with (P := fun l => Sorted _ l); [| |exact Hs].
      * constructor.
      * intros a l _ IH Hhd. constructor; [exact IH|].
        destruct Hhd as [|b l' Hab]; constructor.
        unfold timestamp_asc in Hab. now apply Z.leb_le.
Qed.

(** Eve reads the entries of her own record. *)
Lemma get_attendance_entries_ordered_witness :
  exists entries,
    run (get_attendance_entries Sample.int_decimal "1" Sample.eve) Sample2.db
    = (Ok (map entry_view entries), Sample2.db)
    /\ Permutation [Sample2.entry_out; Sample2.entry_in] entries
    /\ Sorted (fun a b => datetime.key (AttendanceEntry.timestamp a)
                          <= datetime.key (AttendanceEntry.timestamp b))
              entries.
Proof.
  pose proof (get_attendance_entries_ordered Sample.int_decimal Sample2.db "1" 1
                Sample.eve_rec Sample.eve eq_refl eq_refl) as H.
  destruct H as (_ & H). exact (H (or_intror eq_refl)).
Defined.

(** The entry of nine o'clock comes before the one of noon, though it
    was stored after it. *)
Example get_attendance_entries_ex :
  run (get_attendance_entries Sample.int_decimal "1" Sample.eve) Sample2.db
  = (Ok (map entry_view [Sample2.entry_in; Sample2.entry_out]), Sample2.db).
Proof. reflexivity. Qed.

(** ** Deleting an attendance record *)

Lemma find_delete_first_unique {A} (key : A -> Z) (k : Z) (l : list A) (x : A) :
  NoDup (map key l) ->
  find (fun r => key r =? k) l = Some x ->
  find (fun r => key r =? k) (delete_first (fun r => key r =? k) l) = None.
Proof.
  induction l as [|a tl IH]; simpl; [discriminate|].
  intros Hnd Hf. inversion Hnd as [|? ? Hnot Htl]; subst.
  destruct (key a =? k) eqn:Ha.
  - apply Z.eqb_eq in Ha.
    destruct (find (fun r => key r =? k) tl) as [y|] eqn:Hy; [|reflexivity].
    apply find_some in Hy. destruct Hy as (Hin & Hk). apply Z.eqb_eq in Hk.
    exfalso. apply Hnot. rewrite Ha, <- Hk. now apply in_map.
  - simpl. rewrite Ha. now apply IH.
Qed.

(** X13. [delete_attendance] refuses every caller who is not an admin
    with status 403 before it looks at the id, so even an id that is not
    a number gives 403.  An admin removes the stored record with that
    id; the records with other ids are found as before, and, primary
    keys being distinct, reading the deleted id afterwards gives 404 for
    every caller. *)
Theorem delete_attendance_effect
    (int : string -> option Z) (db : DB) (record_id : string) (user : Employee.t) :
  let out := run (delete_attendance int record_id user) db in
  (Employee.role user <> RoleEnum.admin ->
   out = (Raised (HTTPException 403 "Only admin can delete attendance records"), db))
  /\ (forall rid rec,
        let by_id := fun r => AttendanceRecord.id r =? rid in
        Employee.role user = RoleEnum.admin ->
        int record_id = Some rid ->
        find by_id (attendance_records db) = Some rec ->
        out = (Ok "Attendance record deleted",
               with_attendance_records (delete_first by_id (attendance_records db)) db)
        /\ (forall other,
              other <> rid ->
              find (fun r => AttendanceRecord.id r =? other) (attendance_records (snd out))
              = find (fun r => AttendanceRecord.id r =? other) (attendance_records db))
        /\ (NoDup (map AttendanceRecord.id (attendance_records db)) ->
            forall reader,
              run (get_attendance_by_id int record_id reader) (snd out)
              = (Raised (HTTPException 404 "Attendance record not found"), snd out))).
Proof.
  intros out. split.
  - intros Hrole. subst out. unfold delete_attendance.
    destruct (Employee.role user); [reflexivity | reflexivity | congruence].
  - intros rid rec by_id Hrole Hint Hfind.
    assert (Hout : out = (Ok "Attendance record deleted",
                          with_attendance_records
                            (delete_first by_id (attendance_records db)) db)).
    { subst out. unfold delete_attendance. rewrite Hrole. run_request.
      rewrite Hint. simpl. fold by_id. now rewrite Hfind. }
    rewrite Hout. simpl. split; [reflexivity|]. split.
    + intros other Hother.
      apply find_delete_first_other with (x := rec); [assumption|].
      apply Z.eqb_neq. apply find_some in Hfind. destruct Hfind as (_ & Hid).
      apply Z.eqb_eq in Hid. congruence.
    + intros Hnd reader. unfold get_attendance_by_id. run_request.
      rewrite Hint. simpl. unfold by_id.
      now rewrite (find_delete_first_unique AttendanceRecord.id rid
                     (attendance_records db) rec Hnd Hfind).
Qed.

(** Ada deletes Eve's record; Eve then gets 404 for it. *)
Lemma delete_attendance_effect_witness :
  run (get_attendance_by_id Sample.int_decimal "1" Sample.eve)
      (snd (run (delete_attendance Sample.int_decimal "1" Sample.ada) Sample.db))
  = (Raised (HTTPException 404 "Attendance record not found"),
     snd (run (delete_attendance Sample.int_decimal "1" Sample.ada) Sample.db)).
Proof.
  pose proof (delete_attendance_effect Sample.int_decimal Sample.db "1" Sample.ada) as H.
  cbv zeta in H. destruct H as (_ & H).
  specialize (H 1 Sample.eve_rec eq_refl eq_refl eq_refl).
  destruct H as (_ & _ & H).
  exact (H (proj1 sample_well_formed) Sample.eve).
Defined.

(** ** Ordered and bounded listings *)

Lemma Sorted_weaken {A} (R S : A -> A -> Prop) (l : list A) :
  (forall a b, R a b -> S a b) -> Sorted R l -> Sorted S l.
Proof.
  intros HRS Hs. induction Hs as [|a l Hl IH Hhd]; constructor; [assumption|].
  destruct Hhd; constructor. now apply HRS.
Qed.

Lemma order_by_length_eq {A} (le : A -> A -> bool) (l : list A) :
  List.length (order_by le l) = List.length l.
Proof. symmetry. apply Permutation_length, order_by_perm. Qed.

Lemma date_desc_sorted (skip limit : nat) (l : list AttendanceRecord.t) :
  Sorted (fun a b => date.toordinal (AttendanceRecord.date b)
                     <= date.toordinal (AttendanceRecord.date a))
         (page skip limit (order_by date_desc l)).
Proof.
  apply Sorted_weaken with (R := fun a b => date_desc a b = true).
  - intros a b H. unfold date_desc, date.leb in H. now apply Z.leb_le.
  - apply page_sorted, order_by_sorted.
    intros a b. unfold date_desc. apply date_leb_total.
Qed.

(** X14. [get_all_attendance] answers with at most [limit] items, latest
    day first; [get_leave_list] answers with the requests of highest id
    first.  Neither stores anything. *)
Theorem listings_ordered
    (today : date.t) (db : DB) (user : Employee.t) :
  (forall skip limit,
      exists rows,
        run (get_all_attendance skip limit user) db
        = (Ok (map (attendance_item db) rows), db)
        /\ (List.length rows <= limit)%nat
        /\ Sorted (fun a b => date.toordinal (AttendanceRecord.date b)
                              <= date.toordinal (AttendanceRecord.date a))
                  rows)
  /\ exists requests,
       run (get_leave_list today user) db = (Ok (map (leave_view today db) requests), db)
       /\ Sorted (fun a b => LeaveRequest.id b <= LeaveRequest.id a) requests.
Proof.
  split.
  - intros skip limit. exists (get_all_attendance_rows db skip limit user).
    split; [reflexivity|]. split.
    + unfold get_all_attendance_rows. apply page_length.
    + unfold get_all_attendance_rows. apply date_desc_sorted.
  - exists (get_leave_list_rows db user). split; [reflexivity|].
    unfold get_leave_list_rows.
    apply Sorted_weaken
      with (R := fun a b => (LeaveRequest.id b <=? LeaveRequest.id a) = true).
    + intros a b H. now apply Z.leb_le.
    + apply order_by_sorted. intros a b.
      destruct (Z.leb_spec (LeaveRequest.id b) (LeaveRequest.id a)); [now left|].
      right. apply Z.leb_le. lia.
Qed.

Lemma sort_column_allowed (s : string) :
  sort_column s <> None
  <-> s = "date" \/ s = "check_in_time" \/ s = "check_out_time".
Proof.
  unfold sort_column.
  destruct (String.eqb_spec s "date") as [-> | H1]; [split; [auto | discriminate]|].
  destruct (String.eqb_spec s "check_in_time") as [-> | H2];
    [split; [auto | discriminate]|].
  destruct (String.eqb_spec s "check_out_time") as [-> | H3];
    [split; [auto | discriminate]|].
  split; [congruence | intros [H | [H | H]]; congruence].
Qed.

(** X15. [list_attendance] succeeds exactly when [order] is "asc" or
    "desc" and [sort_by] is absent, empty or one of "date",
    "check_in_time" and "check_out_time"; otherwise it fails with status
    400, and an invalid [order] is reported before an invalid [sort_by].
    It never stores anything. *)
Theorem list_attendance_validation
    (db : DB) (skip limit : nat) (employee_id : option Z)
    (start_date end_date : option date.t) (sort_by : option string) (order : string)
    (user : Employee.t) :
  let out := run (list_attendance skip limit employee_id start_date end_date sort_by
                    order user) db in
  (succeeds out = true
   <-> (order = "asc" \/ order = "desc")
       /\ (sort_by = None \/ sort_by = Some ""
           \/ sort_by = Some "date" \/ sort_by = Some "check_in_time"
           \/ sort_by = Some "check_out_time"))
  /\ (order <> "asc" -> order <> "desc" ->
      fst out = Raised (HTTPException 400 "order must be 'asc' or 'desc'"))
  /\ (succeeds out = false -> exists detail, fst out = Raised (HTTPException 400 detail))
  /\ snd out = db.
Proof.
  intros out.
  assert (Hout : out =
    if negb (String.eqb order "asc" || String.eqb order "desc")
    then (Raised (HTTPException 400 "order must be 'asc' or 'desc'"), db)
    else if truthy sort_by
         then match sort_column (str_or sort_by "") with
              | None =>
                  (Raised (HTTPException 400
                     "Invalid sort_by field. Allowed: ['check_in_time', 'check_out_time', 'date']"),
                   db)
              | Some _ => (fst out, db)
              end
         else (fst out, db)).
  { subst out. unfold list_attendance.
    destruct (negb (String.eqb order "asc" || String.eqb order "desc")); [reflexivity|].
    run_request.
    destruct (truthy sort_by); simpl; [|reflexivity].
    destruct (sort_column (str_or sort_by "")); simpl; [|reflexivity].
    destruct (String.eqb order "asc"); reflexivity. }
  assert (Hok : negb (String.eqb order "asc" || String.eqb order "desc") = false ->
                (truthy sort_by = false \/ sort_column (str_or sort_by "") <> None) ->
                succeeds out = true).
  { intros Ho Hs. subst out. unfold list_attendance. rewrite Ho. run_request.
    destruct (truthy sort_by); simpl; [|reflexivity].
    destruct (sort_column (str_or sort_by "")); simpl;
      [destruct (String.eqb order "asc"); reflexivity|].
    destruct Hs as [Hs | Hs]; congruence. }
  assert (Horder : negb (String.eqb order "asc" || String.eqb order "desc") = false
                   <-> order = "asc" \/ order = "desc").
  { rewrite negb_false_iff, orb_true_iff, !String.eqb_eq. tauto. }
  assert (Hsort : (truthy sort_by = false \/ sort_column (str_or sort_by "") <> None)
                  <-> (sort_by = None \/ sort_by = Some ""
                       \/ sort_by = Some "date" \/ sort_by = Some "check_in_time"
                       \/ sort_by = Some "check_out_time")).
  { destruct sort_by as [[|c s]|]; simpl.
    - split; auto.
    - unfold str_or. simpl. rewrite sort_column_allowed. split.
      + intros [H | [H | [H | H]]]; [discriminate | rewrite H; auto ..].
      + intros [H | [H | [H | [H | H]]]]; try discriminate;
          right; inversion H; auto.
    - split; auto. }
  split; [|split; [|split]].
  - split.
    + intros Hs. rewrite Hout in Hs. unfold succeeds in Hs.
      destruct (negb (String.eqb order "asc" || String.eqb order "desc")) eqn:Ho;
        [discriminate|].
      split; [now apply Horder|]. apply Hsort.
      destruct (truthy sort_by); [|now left]. right.
      destruct (sort_column (str_or sort_by "")); [discriminate | discriminate Hs].
    + intros (Ho & Hs). apply Hok; [now apply Horder | now apply Hsort].
  - intros H1 H2. rewrite Hout.
    apply String.eqb_neq in H1, H2. now rewrite H1, H2.
  - intros Hs. rewrite Hout.
    destruct (negb (String.eqb order "asc" || String.eqb order "desc")) eqn:Ho;
      [eexists; reflexivity|].
    destruct (truthy sort_by) eqn:Ht.
    + destruct (sort_column (str_or sort_by "")) eqn:Hc; [|eexists; reflexivity].
      assert (Hyes : succeeds out = true)
        by (apply Hok; [reflexivity | right; congruence]).
      congruence.
    + assert (Hyes : succeeds out = true) by (apply Hok; [reflexivity | now left]).
      congruence.
  - rewrite Hout.
    destruct (negb _); [reflexivity|].
    destruct (truthy sort_by); [|reflexivity].
    destruct (sort_column _); reflexivity.
Qed.

(** An order of "up" is refused, also when [sort_by] is invalid too. *)
Lemma list_attendance_validation_witness :
  fst (run (list_attendance 0 100 None None None (Some "name") "up" Sample.ada) Sample.db)
  = Raised (HTTPException 400 "order must be 'asc' or 'desc'").
Proof.
  pose proof (list_attendance_validation Sample.db 0 100 None None None (Some "name")
                "up" Sample.ada) as H.
  cbv zeta in H. destruct H as (_ & H & _).
  assert (H1 : "up" <> "asc") by discriminate.
  assert (H2 : "up" <> "desc") by discriminate.
  exact (H H1 H2).
Defined.


(** [list_attendance] counts and pages the sorted rows. *)
Lemma list_attendance_run
    (db : DB) (skip limit : nat) (employee_id : option Z)
    (start_date end_date : option date.t) (sort_by : option string) (order : string)
    (user : Employee.t) :
  run (list_attendance skip limit employee_id start_date end_date sort_by order user) db
  = if negb (String.eqb order "asc" || String.eqb order "desc")
    then (Raised (HTTPException 400 "order must be 'asc' or 'desc'"), db)
    else match list_attendance_sorted db employee_id start_date end_date sort_by order
                 user with
         | None =>
             (Raised (HTTPException 400
                "Invalid sort_by field. Allowed: ['check_in_time', 'check_out_time', 'date']"),
              db)
         | Some sorted =>
             (Ok (Z.of_nat (List.length sorted), page skip limit sorted), db)
         end.
Proof.
  unfold list_attendance, list_attendance_sorted, list_attendance_filtered.
  destruct (negb (String.eqb order "asc" || String.eqb order "desc")); [reflexivity|].
  run_request.
  destruct (truthy sort_by); simpl; [|reflexivity].
  destruct (sort_column (str_or sort_by "")) as [le|]; simpl; [|reflexivity].
  destruct (String.eqb order "asc"); reflexivity.
Qed.

Lemma list_attendance_sorted_perm
    (db : DB) (employee_id : option Z) (start_date end_date : option date.t)
    (sort_by : option string) (order : string) (user : Employee.t)
    (sorted : list AttendanceRecord.t) :
  list_attendance_sorted db employee_id start_date end_date sort_by order user
  = Some sorted ->
  Permutation (list_attendance_filtered db employee_id start_date end_date user) sorted.
Proof.
  unfold list_attendance_sorted.
  destruct (truthy sort_by).
  - destruct (sort_column (str_or sort_by "")) as [le|]; [|discriminate].
    destruct (String.eqb order "asc"); intros H; injection H as <-; apply order_by_perm.
  - intros H; injection H as <-. apply order_by_perm.
Qed.

Lemma list_attendance_filtered_In
    (db : DB) (employee_id : option Z) (start_date end_date : option date.t)
    (user : Employee.t) (r : AttendanceRecord.t) :
  In r (list_attendance_filtered db employee_id start_date end_date user) ->
  In r (attendance_records db)
  /\ (forall d, start_date = Some d ->
        date.toordinal d <= date.toordinal (AttendanceRecord.date r))
  /\ (forall d, end_date = Some d ->
        date.toordinal (AttendanceRecord.date r) <= date.toordinal d)
  /\ (forall e, Employee.role user <> RoleEnum.employee ->
        employee_id = Some e -> e <> 0 -> AttendanceRecord.employee_id r = e).
Proof.
  unfold list_attendance_filtered.
  set (scope := match Employee.role user with
                | RoleEnum.employee => _
                | _ => _
                end).
  set (q1 := match start_date with Some d => _ | None => _ end).
  intros Hr.
  assert (H1 : In r q1
               /\ forall d, end_date = Some d ->
                    date.toordinal (AttendanceRecord.date r) <= date.toordinal d).
  { destruct end_date as [d|].
    - apply filter_In in Hr. destruct Hr as (Hr & Hd). split; [assumption|].
      intros d' E. injection E as <-. unfold date.leb in Hd. now apply Z.leb_le.
    - split; [assumption | discriminate]. }
  destruct H1 as (H1 & Hend).
  assert (H0 : In r scope
               /\ forall d, start_date = Some d ->
                    date.toordinal d <= date.toordinal (AttendanceRecord.date r)).
  { subst q1. destruct start_date as [d|].
    - apply filter_In in H1. destruct H1 as (H1 & Hd). split; [assumption|].
      intros d' E. injection E as <-. unfold date.leb in Hd. now apply Z.leb_le.
    - split; [assumption | discriminate]. }
  destruct H0 as (H0 & Hstart).
  assert (Hscope : In r (attendance_records db)
            /\ forall e, Employee.role user <> RoleEnum.employee ->
                 employee_id = Some e -> e <> 0 -> AttendanceRecord.employee_id r = e).
  { subst scope. destruct (Employee.role user).
    - apply filter_In in H0. split; [tauto | congruence].
    - destruct employee_id as [e|]; [|split; [assumption | discriminate]].
      destruct (Z.eqb_spec e 0).
      + split; [assumption|]. intros e' _ E. injection E as <-. congruence.
      + apply filter_In in H0. destruct H0 as (H0 & He). split; [assumption|].
        intros e' _ E _. injection E as <-. now apply Z.eqb_eq.
    - destruct employee_id as [e|]; [|split; [assumption | discriminate]].
      destruct (Z.eqb_spec e 0).
      + split; [assumption|]. intros e' _ E. injection E as <-. congruence.
      + apply filter_In in H0. destruct H0 as (H0 & He). split; [assumption|].
        intros e' _ E _. injection E as <-. now apply Z.eqb_eq. }
  destruct Hscope as (Hin & Hemp). auto.
Qed.

(** X16. When [list_attendance] succeeds, the items are at most [limit]
    and at most [total]; every item is a stored record whose date lies
    within the given bounds and, for a caller who is not of role
    employee and gives a non-zero [employee_id], whose owner is that
    employee.  An [employee_id] of 0 filters nothing.  [total] counts the
    rows before paging: it is the same for every [skip] and [limit]. *)
Theorem list_attendance_page
    (db db' : DB) (skip limit : nat) (employee_id : option Z)
    (start_date end_date : option date.t) (sort_by : option string) (order : string)
    (user : Employee.t) (total : Z) (items : list AttendanceRecord.t) :
  run (list_attendance skip limit employee_id start_date end_date sort_by order user) db
  = (Ok (total, items), db') ->
  (List.length items <= limit)%nat
  /\ Z.of_nat (List.length items) <= total
  /\ (forall r, In r items ->
        In r (attendance_records db)
        /\ (forall d, start_date = Some d ->
              date.toordinal d <= date.toordinal (AttendanceRecord.date r))
        /\ (forall d, end_date = Some d ->
              date.toordinal (AttendanceRecord.date r) <= date.toordinal d)
        /\ (forall e, Employee.role user <> RoleEnum.employee ->
              employee_id = Some e -> e <> 0 -> AttendanceRecord.employee_id r = e))
  /\ (forall skip' limit',
        exists items',
          run (list_attendance skip' limit' employee_id start_date end_date sort_by order
                 user) db
          = (Ok (total, items'), db))
  /\ (employee_id = Some 0 ->
      run (list_attendance skip limit None start_date end_date sort_by order user) db
      = (Ok (total, items), db')).
Proof.
  intros Hrun. rewrite list_attendance_run in Hrun.
  destruct (negb (String.eqb order "asc" || String.eqb order "desc")) eqn:Horder;
    [discriminate|].
  destruct (list_attendance_sorted db employee_id start_date end_date sort_by order user)
    as [sorted|] eqn:Hsorted; [|discriminate].
  injection Hrun as <- <- <-.
  split; [apply page_length|]. split.
  - pose proof (proj2 (page_length skip limit sorted)). lia.
  - split; [|split].
    + intros r Hr. apply page_In in Hr.
      apply (Permutation_in _ (Permutation_sym
               (list_attendance_sorted_perm _ _ _ _ _ _ _ _ Hsorted))) in Hr.
      now apply list_attendance_filtered_In.
    + intros skip' limit'. eexists. rewrite list_attendance_run, Horder, Hsorted.
      reflexivity.
    + intros ->. rewrite list_attendance_run, Horder.
      assert (Hsame : list_attendance_sorted db None start_date end_date sort_by order user
                      = Some sorted).
      { rewrite <- Hsorted. unfold list_attendance_sorted, list_attendance_filtered.
        simpl. now destruct (Employee.role user). }
      now rewrite Hsame.
Qed.

(** Max lists the attendance of employee 3 from the first sample day
    on: one row in all, whatever the page asked for. *)
Lemma list_attendance_page_witness :
  (List.length [Sample.eve_rec] <= 100)%nat
  /\ exists items',
       run (list_attendance 1 10 (Some 3) (Some Sample.day1) None None "desc" Sample.max)
           Sample.db
       = (Ok (1, items'), Sample.db).
Proof.
  pose proof (list_attendance_page Sample.db Sample.db 0 100 (Some 3) (Some Sample.day1)
                None None "desc" Sample.max 1 [Sample.eve_rec] eq_refl) as H.
  destruct H as (Hlen & _ & _ & Hany & _).
  split; [exact Hlen | exact (Hany 1%nat 10%nat)].
Defined.

(** ** Creating and reading leave requests *)

(** X17. [create_leave] refuses a range whose start is after its end
    with status 400 and stores nothing.  Otherwise it stores one pending
    request that belongs to the caller, whatever [employeeId] the payload
    names, of leave type 1; the response counts at least one day, and
    the caller finds the new request in [get_leave_list] whatever their
    role. *)
Theorem create_leave_effect
    (date_fromisoformat : string -> option date.t) (today : date.t) (leave_key : Z)
    (applied_at_default : option datetime.t) (db : DB)
    (payload : CreateLeaveRequest.t) (user : Employee.t) (start end_ : date.t) :
  let out := run (create_leave date_fromisoformat today leave_key applied_at_default
                    payload user) db in
  let lr := LeaveRequest.mk leave_key (Employee.id user) 1 start end_
              (Some (CreateLeaveRequest.reason payload))
              LeaveStatus.pending applied_at_default None None in
  date_fromisoformat (CreateLeaveRequest.startDate payload) = Some start ->
  date_fromisoformat (CreateLeaveRequest.endDate payload) = Some end_ ->
  (date.toordinal end_ < date.toordinal start ->
   out = (Raised (HTTPException 400 "Start date must be before end date"), db))
  /\ (date.toordinal start <= date.toordinal end_ ->
      exists view,
        out = (Ok view, with_leave_requests (leave_requests db ++ [lr])%list db)
        /\ LeaveView.employeeId view = str_int (Employee.id user)
        /\ LeaveView.status view = "Pending_Manager"
        /\ LeaveView.daysRequested view
           = date.toordinal end_ - date.toordinal start + 1
        /\ 1 <= LeaveView.daysRequested view
        /\ In lr (get_leave_list_rows (snd out) user))
  /\ (forall named,
        run (create_leave date_fromisoformat today leave_key applied_at_default
               (CreateLeaveRequest.mk named (CreateLeaveRequest.type payload)
                  (CreateLeaveRequest.startDate payload)
                  (CreateLeaveRequest.endDate payload)
                  (CreateLeaveRequest.reason payload)) user) db
        = out).
Proof.
  intros out lr Hstart Hend.
  split; [|split].
  - intros Hlt. subst out. unfold create_leave. run_request.
    rewrite Hstart. simpl. rewrite Hend. simpl.
    unfold date.ltb. apply Z.ltb_lt in Hlt. now rewrite Hlt.
  - intros Hle.
    assert (Hout : out = (Ok (LeaveView.mk
                               (str_int leave_key) (str_int (Employee.id user))
                               (Employee.first_name user ++ " " ++ Employee.last_name user)
                               (CreateLeaveRequest.type payload)
                               (date.str start) (date.str end_) "Pending_Manager"
                               (CreateLeaveRequest.reason payload)
                               (match applied_at_default with
                                | Some t => datetime.isoformat t
                                | None => date.str today
                                end)
                               (date.sub_days end_ start + 1)),
                          with_leave_requests (leave_requests db ++ [lr])%list db)).
    { subst out. unfold create_leave. run_request.
      rewrite Hstart. simpl. rewrite Hend. simpl.
      unfold date.ltb. apply Z.ltb_ge in Hle. now rewrite Hle. }
    eexists. split; [exact Hout|]. simpl.
    split; [reflexivity|]. split; [reflexivity|].
    unfold date.sub_days. split; [reflexivity|]. split; [lia|].
    rewrite Hout. simpl. unfold get_leave_list_rows. apply order_by_In.
    apply leave_scope_visible. simpl. split.
    + apply in_or_app. right. now left.
    + unfold visible. destruct (Employee.role user); auto.
  - intros named. reflexivity.
Qed.

(** Eve asks for 2026-05-04 to 2026-05-06 in Bob's name: the request is
    hers, for three days. *)
Lemma create_leave_effect_witness :
  exists view,
    fst (run (create_leave Sample2.iso_date Sample.day1 9 None
                (CreateLeaveRequest.mk (Some "4") "Vacation" "2026-05-04" "2026-05-06"
                   "family") Sample.eve) Sample.db)
    = Ok view
    /\ LeaveView.employeeId view = "3"
    /\ LeaveView.daysRequested view = 3.
Proof.
  pose proof (create_leave_effect Sample2.iso_date Sample.day1 9 None Sample.db
                (CreateLeaveRequest.mk (Some "4") "Vacation" "2026-05-04" "2026-05-06"
                   "family") Sample.eve (date.mk 2026 5 4) (date.mk 2026 5 6)
                eq_refl eq_refl) as H.
  cbv zeta in H. destruct H as (_ & H & _).
  assert (Hle : date.toordinal (date.mk 2026 5 4) <= date.toordinal (date.mk 2026 5 6))
    by (vm_compute; discriminate).
  destruct (H Hle) as (view & Hout & Hemp & _ & Hdays & _).
  exists view. rewrite Hout. split; [reflexivity|]. split; [exact Hemp|].
  rewrite Hdays. reflexivity.
Defined.

(** X18. [apply_leave_compat] refuses a range whose start is after its
    end with status 400 and stores nothing; otherwise it stores one
    pending request that belongs to the caller, with the leave type of
    the payload, and answers with the status PENDING. *)
Theorem apply_leave_compat_effect
    (leave_key : Z) (applied_at_default : option datetime.t) (db : DB)
    (payload : LeaveRequestCreate.t) (user : Employee.t) :
  let out := run (apply_leave_compat leave_key applied_at_default payload user) db in
  let lr := LeaveRequest.mk leave_key (Employee.id user)
              (LeaveRequestCreate.leave_type_id payload)
              (LeaveRequestCreate.start_date payload)
              (LeaveRequestCreate.end_date payload)
              (LeaveRequestCreate.reason payload)
              LeaveStatus.pending applied_at_default None None in
  (date.toordinal (LeaveRequestCreate.end_date payload)
   < date.toordinal (LeaveRequestCreate.start_date payload) ->
   out = (Raised (HTTPException 400 "start_date must be <= end_date"), db))
  /\ (date.toordinal (LeaveRequestCreate.start_date payload)
      <= date.toordinal (LeaveRequestCreate.end_date payload) ->
      exists response,
        out = (Ok response, with_leave_requests (leave_requests db ++ [lr])%list db)
        /\ ApplyLeaveResponse.employee_id response = Employee.id user
        /\ ApplyLeaveResponse.status response = "PENDING"
        /\ 1 <= days_requested lr
        /\ In lr (get_leave_list_rows (snd out) user)).
Proof.
  intros out lr. split.
  - intros Hlt. subst out. unfold apply_leave_compat, date.ltb.
    apply Z.ltb_lt in Hlt. now rewrite Hlt.
  - intros Hle.
    assert (Hout : out = (Ok (ApplyLeaveResponse.mk leave_key (Employee.id user)
                               (LeaveRequestCreate.leave_type_id payload, "Leave")
                               (date.str (LeaveRequestCreate.start_date payload))
                               (date.str (LeaveRequestCreate.end_date payload))
                               "PENDING"),
                          with_leave_requests (leave_requests db ++ [lr])%list db)).
    { subst out. unfold apply_leave_compat, date.ltb.
      apply Z.ltb_ge in Hle. now rewrite Hle. }
    eexists. split; [exact Hout|]. simpl.
    split; [reflexivity|]. split; [reflexivity|].
    split; [unfold days_requested, date.sub_days; simpl; lia|].
    rewrite Hout. simpl. unfold get_leave_list_rows. apply order_by_In.
    apply leave_scope_visible. simpl. split.
    + apply in_or_app. right. now left.
    + unfold visible. destruct (Employee.role user); auto.
Qed.

(** Bob applies for one day. *)
Lemma apply_leave_compat_effect_witness :
  exists response,
    fst (run (apply_leave_compat 9 None
                (LeaveRequestCreate.mk 2 (date.mk 2026 5 4) (date.mk 2026 5 4) None)
                Sample.bob) Sample.db)
    = Ok response
    /\ ApplyLeaveResponse.employee_id response = 4.
Proof.
  pose proof (apply_leave_compat_effect 9 None Sample.db
                (LeaveRequestCreate.mk 2 (date.mk 2026 5 4) (date.mk 2026 5 4) None)
                Sample.bob) as H.
  cbv zeta in H. destruct H as (_ & H).
  assert (Hle : date.toordinal (date.mk 2026 5 4) <= date.toordinal (date.mk 2026 5 4))
    by (vm_compute; discriminate).
  destruct (H Hle) as (response & Hout & Hemp & _).
  exists response. rewrite Hout. split; [reflexivity | exact Hemp].
Defined.

(** X19. [get_leave_by_id] makes no role or ownership check: no caller
    ever gets status 403, and for the id of a stored request every
    caller gets its view, the one that the listings show. *)
Theorem get_leave_by_id_any_caller
    (int : string -> option Z) (today : date.t) (db : DB) (leave_id : string)
    (user : Employee.t) :
  (forall detail,
      fst (run (get_leave_by_id int today leave_id user) db)
      <> Raised (HTTPException 403 detail))
  /\ (forall lid lr,
        int leave_id = Some lid ->
        find (fun r => LeaveRequest.id r =? lid) (leave_requests db) = Some lr ->
        run (get_leave_by_id int today leave_id user) db
        = (Ok (leave_view today db lr), db)
        /\ LeaveView.daysRequested (leave_view today db lr)
           = date.toordinal (LeaveRequest.end_date lr)
             - date.toordinal (LeaveRequest.start_date lr) + 1).
Proof.
  split.
  - intros detail. unfold get_leave_by_id. run_request.
    destruct (int leave_id) as [lid|]; simpl; [|discriminate].
    destruct (find _ (leave_requests db)); simpl; discriminate.
  - intros lid lr Hint Hfind. split; [|reflexivity].
    unfold get_leave_by_id. run_request. rewrite Hint. simpl. now rewrite Hfind.
Qed.

(** Bob reads Eve's request. *)
Lemma get_leave_by_id_any_caller_witness :
  run (get_leave_by_id Sample.int_decimal Sample.day1 "1" Sample.bob) Sample.db
  = (Ok (leave_view Sample.day1 Sample.db Sample.eve_leave), Sample.db).
Proof.
  exact (proj1 (proj2 (get_leave_by_id_any_caller Sample.int_decimal Sample.day1
                         Sample.db "1" Sample.bob) 1 Sample.eve_leave eq_refl eq_refl)).
Defined.

(** ** Approving once *)

Lemma find_replace_first_other {A} (p q : A -> bool) (v : A) (l : list A) (x : A) :
  find p l = Some x -> q x = false -> q v = false ->
  find q (replace_first p v l) = find q l.
Proof.
  induction l as [|a tl IH]; simpl; [discriminate|].
  destruct (p a) eqn:Ha; intros Hf Hx Hv.
  - injection Hf as ->. simpl. now rewrite Hx, Hv.
  - simpl. destruct (q a); [reflexivity|]. now apply IH.
Qed.

(** The checks of [approve_leave_post], in order, and its writes. *)
Lemma approve_leave_post_run
    (int : string -> option Z) (today : date.t) (utcnow : datetime.t) (db : DB)
    (leave_id : string) (user : Employee.t) :
  run (approve_leave_post int today utcnow leave_id user) db
  = if negb (is_admin_or_manager user)
    then (Raised (HTTPException 403 "Only admin/manager can approve"), db)
    else match int leave_id with
         | None => (Raised (HTTPException 400 "Invalid leave ID"), db)
         | Some lid =>
             match find (fun r => LeaveRequest.id r =? lid) (leave_requests db) with
             | None => (Raised (HTTPException 404 "Leave request not found"), db)
             | Some lr =>
                 if negb (LeaveStatus.eqb (LeaveRequest.status lr) LeaveStatus.pending)
                 then (Raised (HTTPException 400 "Leave request not pending"), db)
                 else if RoleEnum.eqb (Employee.role user) RoleEnum.manager
                         && negb (is_some (employee_by_id db (LeaveRequest.employee_id lr)))
                 then (Raised (HTTPException 404 "Employee not found"), db)
                 else if RoleEnum.eqb (Employee.role user) RoleEnum.manager
                         && reports_to_other
                              (employee_by_id db (LeaveRequest.employee_id lr)) user
                 then (Raised (HTTPException 403
                         "You can only approve leaves for your direct reports"), db)
                 else (Ok (StatusResponse.mk (str_int (LeaveRequest.id lr)) "Approved"
                             "Leave approved successfully"),
                       approve_writes today utcnow db lid lr user)
             end
         end.
Proof.
  unfold approve_leave_post, approve_writes, reports_to_other.
  destruct (negb (is_admin_or_manager user)); [reflexivity|].
  destruct (int leave_id) as [lid|]; [|reflexivity].
  run_request.
  destruct (find _ (leave_requests db)) as [lr|]; simpl; [|reflexivity].
  destruct (negb (LeaveStatus.eqb (LeaveRequest.status lr) LeaveStatus.pending));
    simpl; [reflexivity|].
  destruct (RoleEnum.eqb (Employee.role user) RoleEnum.manager); simpl.
  - destruct (employee_by_id db (LeaveRequest.employee_id lr)) as [e|]; simpl;
      [|reflexivity].
    destruct (negb (option_eqb Z.eqb _ _)); simpl; [reflexivity|].
    destruct (find _ (leave_balances db)); reflexivity.
  - destruct (find _ (leave_balances db)); reflexivity.
Qed.

Lemma approve_writes_request
    (today : date.t) (utcnow : datetime.t) (db : DB) (lid : Z) (lr : LeaveRequest.t)
    (user : Employee.t) :
  find (fun r => LeaveRequest.id r =? lid) (leave_requests db) = Some lr ->
  exists lr',
    find (fun r => LeaveRequest.id r =? lid)
         (leave_requests (approve_writes today utcnow db lid lr user)) = Some lr'
    /\ LeaveRequest.status lr' = LeaveStatus.approved
    /\ LeaveRequest.employee_id lr' = LeaveRequest.employee_id lr.
Proof.
  intros Hfind. eexists. split.
  - unfold approve_writes. simpl.
    apply find_replace_first_same with (x := lr); [assumption|].
    simpl. apply find_some in Hfind. tauto.
  - split; reflexivity.
Qed.

(** X20. A leave request is approved at most once: after a successful
    [approve_leave_post], every further approval of the same id, by any
    caller at any time, fails and stores nothing, so the balance is
    charged once; an admin or a manager is told "Leave request not
    pending" (status 400).  The approved request can no longer be
    deleted either. *)
Theorem approve_leave_post_once
    (int : string -> option Z) (today : date.t) (utcnow : datetime.t) (db : DB)
    (leave_id : string) (user : Employee.t) :
  let db1 := snd (run (approve_leave_post int today utcnow leave_id user) db) in
  succeeds (run (approve_leave_post int today utcnow leave_id user) db) = true ->
  forall today2 utcnow2 user2,
    succeeds (run (approve_leave_post int today2 utcnow2 leave_id user2) db1) = false
    /\ snd (run (approve_leave_post int today2 utcnow2 leave_id user2) db1) = db1
    /\ (Employee.role user2 <> RoleEnum.employee ->
        fst (run (approve_leave_post int today2 utcnow2 leave_id user2) db1)
        = Raised (HTTPException 400 "Leave request not pending"))
    /\ succeeds (run (delete_leave int leave_id user2) db1) = false
    /\ snd (run (delete_leave int leave_id user2) db1) = db1.
Proof.
  intros db1 Hok today2 utcnow2 user2.
  assert (Hfirst : exists lid lr,
    int leave_id = Some lid
    /\ find (fun r => LeaveRequest.id r =? lid) (leave_requests db) = Some lr
    /\ db1 = approve_writes today utcnow db lid lr user).
  { subst db1. revert Hok. rewrite approve_leave_post_run. unfold succeeds.
    destruct (negb (is_admin_or_manager user)); [discriminate|].
    destruct (int leave_id) as [lid|]; [|discriminate].
    destruct (find _ (leave_requests db)) as [lr|] eqn:Hfind; [|discriminate].
    destruct (negb (LeaveStatus.eqb _ _)); [discriminate|].
    destruct (RoleEnum.eqb _ _ && negb _); [discriminate|].
    destruct (RoleEnum.eqb _ _ && reports_to_other _ _); [discriminate|].
    intros _. now exists lid, lr. }
  destruct Hfirst as (lid & lr & Hint & Hfind & Hdb1).
  destruct (approve_writes_request today utcnow db lid lr user Hfind)
    as (lr' & Hfind' & Hstatus & _).
  rewrite <- Hdb1 in Hfind'.
  assert (Hsecond : run (approve_leave_post int today2 utcnow2 leave_id user2) db1
    = if negb (is_admin_or_manager user2)
      then (Raised (HTTPException 403 "Only admin/manager can approve"), db1)
      else (Raised (HTTPException 400 "Leave request not pending"), db1)).
  { rewrite approve_leave_post_run, Hint, Hfind', Hstatus. reflexivity. }
  assert (Hdelete : run (delete_leave int leave_id user2) db1
    = if negb (LeaveRequest.employee_id lr' =? Employee.id user2)
         && RoleEnum.eqb (Employee.role user2) RoleEnum.employee
      then (Raised (HTTPException 403 "Cannot delete others' leave requests"), db1)
      else (Raised (HTTPException 400 "Can only delete pending leave requests"), db1)).
  { rewrite (delete_leave_run int db1 leave_id lid lr' user2 Hint Hfind'), Hstatus.
    reflexivity. }
  rewrite Hsecond, Hdelete. unfold succeeds.
  split; [now destruct (negb _)|]. split; [now destruct (negb _)|].
  split.
  - intros Hrole. unfold is_admin_or_manager.
    destruct (Employee.role user2); [congruence | reflexivity | reflexivity].
  - split; now destruct (negb _ && _).
Qed.

(** Max approves Eve's request; Ada's approval afterwards is refused. *)
Lemma approve_leave_post_once_witness :
  fst (run (approve_leave_post Sample.int_decimal Sample.day1 Sample.noon "1" Sample.ada)
           (snd (run (approve_leave_post Sample.int_decimal Sample.day1 Sample.noon "1"
                        Sample.max) Sample.db)))
  = Raised (HTTPException 400 "Leave request not pending").
Proof.
  pose proof (approve_leave_post_once Sample.int_decimal Sample.day1 Sample.noon
                Sample.db "1" Sample.max) as H.
  cbv zeta in H. specialize (H eq_refl Sample.day1 Sample.noon Sample.ada).
  destruct H as (_ & _ & H & _).
  assert (Ha : Employee.role Sample.ada <> RoleEnum.employee) by discriminate.
  exact (H Ha).
Defined.

(** X21. [get_leave_balance] reports an employee without a balance row
    for the current year as having 17 days.  A successful approval of a
    stored request lowers the reported balance of its owner by the days
    requested, provided the owner's row, if there is one, has
    [remaining = total - used]; the reported balance of every other
    employee stays as it was. *)
Theorem get_leave_balance_after_approval
    (int : string -> option Z) (today : date.t) (utcnow : datetime.t) (db : DB)
    (leave_id : string) (lid : Z) (lr : LeaveRequest.t) (user : Employee.t) :
  let db1 := snd (run (approve_leave_post int today utcnow leave_id user) db) in
  let days := date.toordinal (LeaveRequest.end_date lr)
              - date.toordinal (LeaveRequest.start_date lr) + 1 in
  int leave_id = Some lid ->
  find (fun r => LeaveRequest.id r =? lid) (leave_requests db) = Some lr ->
  succeeds (run (approve_leave_post int today utcnow leave_id user) db) = true ->
  (find (balance_of (LeaveRequest.employee_id lr) (date.year today)) (leave_balances db)
   = None ->
   get_leave_balance today db (LeaveRequest.employee_id lr) = 17
   /\ get_leave_balance today db1 (LeaveRequest.employee_id lr) = 17 - days)
  /\ ((forall b,
         find (balance_of (LeaveRequest.employee_id lr) (date.year today))
              (leave_balances db) = Some b ->
         LeaveBalance.remaining_leaves b
         = LeaveBalance.total_leaves b - LeaveBalance.used_leaves b) ->
      get_leave_balance today db1 (LeaveRequest.employee_id lr)
      = get_leave_balance today db (LeaveRequest.employee_id lr) - days)
  /\ (forall other,
        other <> LeaveRequest.employee_id lr ->
        get_leave_balance today db1 other = get_leave_balance today db other).
Proof.
  intros db1 days Hint Hfind Hok.
  assert (Hdb1 : db1 = approve_writes today utcnow db lid lr user).
  { subst db1. revert Hok. rewrite approve_leave_post_run, Hint, Hfind. unfold succeeds.
    destruct (negb (is_admin_or_manager user)); [discriminate|].
    destruct (negb (LeaveStatus.eqb _ _)); [discriminate|].
    destruct (RoleEnum.eqb _ _ && negb _); [discriminate|].
    destruct (RoleEnum.eqb _ _ && reports_to_other _ _); [discriminate|].
    reflexivity. }
  set (mine := balance_of (LeaveRequest.employee_id lr) (date.year today)).
  assert (Hdays : days_requested lr = days) by reflexivity.
  assert (Hmine : find mine (leave_balances db1)
    = match find mine (leave_balances db) with
      | Some b =>
          Some (LeaveBalance.mk (LeaveBalance.employee_id b) (LeaveBalance.year b)
                  (LeaveBalance.total_leaves b) (LeaveBalance.used_leaves b + days)
                  (LeaveBalance.total_leaves b - (LeaveBalance.used_leaves b + days)))
      | None =>
          Some (LeaveBalance.mk (LeaveRequest.employee_id lr) (date.year today)
                  17 days (17 - days))
      end).
  { rewrite Hdb1. unfold approve_writes. simpl. fold mine. rewrite Hdays.
    destruct (find mine (leave_balances db)) as [b|] eqn:Hb.
    - apply find_replace_first_same with (x := b); [assumption|].
      apply find_some in Hb. exact (proj2 Hb).
    - rewrite find_snoc, Hb. unfold mine, balance_of. simpl. now rewrite !Z.eqb_refl. }
  split; [|split].
  - intros Hnone. unfold get_leave_balance. fold mine. now rewrite Hmine, Hnone.
  - intros Hcons. unfold get_leave_balance. fold mine. rewrite Hmine.
    destruct (find mine (leave_balances db)) as [b|] eqn:Hb; simpl.
    + rewrite (Hcons b eq_refl). lia.
    + lia.
  - intros other Hother. unfold get_leave_balance.
    assert (Hsame : find (balance_of other (date.year today)) (leave_balances db1)
                    = find (balance_of other (date.year today)) (leave_balances db)).
    { rewrite Hdb1. unfold approve_writes. simpl. fold mine.
      assert (Hno : forall b, LeaveBalance.employee_id b = LeaveRequest.employee_id lr ->
                      balance_of other (date.year today) b = false).
      { intros b Hb. unfold balance_of. rewrite Hb.
        assert (E : (LeaveRequest.employee_id lr =? other) = false)
          by (apply Z.eqb_neq; congruence).
        now rewrite E. }
      destruct (find mine (leave_balances db)) as [b|] eqn:Hb.
      - assert (Hb' : LeaveBalance.employee_id b = LeaveRequest.employee_id lr).
        { apply find_some in Hb. destruct Hb as (_ & Hb). unfold mine, balance_of in Hb.
          apply andb_prop in Hb. now apply Z.eqb_eq. }
        apply find_replace_first_other with (x := b); [assumption | | ]; now apply Hno.
      - rewrite find_snoc.
        destruct (find (balance_of other (date.year today)) (leave_balances db));
          [reflexivity|].
        now rewrite Hno. }
    now rewrite Hsame.
Qed.

(** Max approves Eve's three days: her reported balance goes from 17 to
    14. *)
Lemma get_leave_balance_after_approval_witness :
  get_leave_balance Sample.day1
    (snd (run (approve_leave_post Sample.int_decimal Sample.day1 Sample.noon "1"
                 Sample.max) Sample.db)) 3
  = get_leave_balance Sample.day1 Sample.db 3 - 3.
Proof.
  pose proof (get_leave_balance_after_approval Sample.int_decimal Sample.day1 Sample.noon
                Sample.db "1" 1 Sample.eve_leave Sample.max) as H.
  cbv zeta in H. specialize (H eq_refl eq_refl eq_refl).
  destruct H as (_ & H & _).
  apply H. intros b Hb. injection Hb as <-. reflexivity.
Defined.
